(** * mcp-chat model tools: discovery filter, config export, registry validator

  A shallow embedding of [discover_models.py] and [validate_models.py].

  Catalog records are JSON objects on the wire; here they are records
  whose optional fields are [option]s, so that [m.get(k, d)] reads
  [get_or (k m) d].  Python exceptions are values of an error monad,
  [sys.exit] is a termination value, console output is left out except
  where computing the printed value can raise. *)

From Stdlib Require Import ZArith List String Ascii Bool Lia.
From Stdlib Require Import Floats Permutation Sorted.
Import ListNotations.

Local Open Scope string_scope.
Local Open Scope list_scope.
Local Open Scope Z_scope.

(* ================================================================== *)
(** * The fragment of the Python runtime the two scripts use *)
(* ================================================================== *)

Module Py.

(** ** Exceptions and fallible computations *)

Inductive exn_kind : Type :=
| ValueError
| ZeroDivisionError
| OverflowError
| RemoteError.

Record exn : Type := Exn { exn_kind_of : exn_kind; exn_str : string }.

Inductive result (A : Type) : Type :=
| Ok (a : A)
| Raise (e : exn).
Arguments Ok {A} a.
Arguments Raise {A} e.

Definition bind {A B : Type} (c : result A) (k : A -> result B) : result B :=
  match c with
  | Ok a => k a
  | Raise e => Raise e
  end.

Definition raises {A : Type} (c : result A) (k : exn_kind) : Prop :=
  exists msg, c = Raise (Exn k msg).

(** [dict.get(key, default)] on an optional field. *)
Definition get_or {A : Type} (field : option A) (default : A) : A :=
  match field with
  | Some v => v
  | None => default
  end.

(** A list comprehension [[x for x in l if p(x)]] whose condition may
    raise: the condition is evaluated on every element, left to right. *)
Fixpoint filter_exc {A : Type} (p : A -> result bool) (l : list A)
  : result (list A) :=
  match l with
  | [] => Ok []
  | x :: l' =>
      bind (p x) (fun b =>
      bind (filter_exc p l') (fun r =>
      Ok (if b then x :: r else r)))
  end.

(** What the condition of such a comprehension says of [x], where it
    answers. *)
Definition answer {A : Type} (p : A -> result bool) (x : A) : bool :=
  match p x with Ok b => b | Raise _ => false end.

(** ** Strings (ASCII) *)

Definition is_upper (c : ascii) : bool :=
  let n := nat_of_ascii c in (Nat.leb 65 n && Nat.leb n 90)%bool.

Definition lower_char (c : ascii) : ascii :=
  if is_upper c then ascii_of_nat (nat_of_ascii c + 32) else c.

(** [s.lower()] *)
Fixpoint lower (s : string) : string :=
  match s with
  | EmptyString => EmptyString
  | String c s' => String (lower_char c) (lower s')
  end.

(** [s.startswith(p)] *)
Definition startswith (s p : string) : bool := String.prefix p s.

(** [sub in s], also [s.find(sub) >= 0] *)
Fixpoint contains (sub s : string) : bool :=
  if String.prefix sub s then true
  else match s with
       | EmptyString => false
       | String _ s' => contains sub s'
       end.

(** [s.replace(old, new)] for one-character [old] and [new]. *)
Fixpoint replace_char (old new : ascii) (s : string) : string :=
  match s with
  | EmptyString => EmptyString
  | String c s' =>
      String (if Ascii.eqb c old then new else c) (replace_char old new s')
  end.

(** [x in l] on a list of strings *)
Definition in_list (x : string) (l : list string) : bool :=
  existsb (String.eqb x) l.

(** [any(p(x) for x in l)] *)
Definition any {A : Type} (p : A -> bool) (l : list A) : bool := existsb p l.

(** [sep.join(l)] *)
Fixpoint join (sep : string) (l : list string) : string :=
  match l with
  | [] => ""
  | [x] => x
  | x :: l' => (x ++ sep ++ join sep l')%string
  end.

(** [l[:n]] for [n >= 0] *)
Definition slice_to {A : Type} (n : nat) (l : list A) : list A := firstn n l.

(** ** [sorted(l, key=..., reverse=True)]

    Python's sort is stable, and with [reverse=True] elements with equal
    keys keep their original relative order.  Insertion from the right:
    the element inserted stood before every element already placed, so
    it goes before the first one whose key is not greater. *)

Section Sorted.
Context {A : Type}.
Variable key : A -> Z.

Fixpoint insert_desc (x : A) (l : list A) : list A :=
  match l with
  | [] => [x]
  | y :: l' =>
      if key y <=? key x then x :: y :: l' else y :: insert_desc x l'
  end.

Fixpoint sorted_reverse (l : list A) : list A :=
  match l with
  | [] => []
  | x :: l' => insert_desc x (sorted_reverse l')
  end.

(** [a] may stand before [b] in a list sorted by descending key. *)
Definition desc (a b : A) : Prop := key b <= key a.

End Sorted.

(** ** Floats (binary64, round to nearest even) *)

(** The float nearest to [(-1)^neg * num / den], for positive [num] and
    [den]: quotient and remainder at the precision of the result, then
    one rounding. *)
Definition float_of_ratio (neg : bool) (num den : Z) : float :=
  let '(q, e, l) := SFdiv_core_binary prec emax num 0 den 0 in
  SF2Prim (binary_round_aux prec emax neg q e l).

(** Rounding [m * 2^e] keeps something of [m] when the exponent leaves
    room for it: [e] is not below the smallest exponent, or shifting [m]
    down to the smallest exponent does not lose it whole. *)
Definition roomy (m e : Z) : Prop :=
  emin - e <= 0 \/ 2 ^ (emin - e) <= m.

(** [a / b] on ints: the correctly rounded quotient. *)
Definition truediv (a b : Z) : result float :=
  if b =? 0 then Raise (Exn ZeroDivisionError "division by zero")
  else if a =? 0 then Ok (if b <? 0 then (-0)%float else 0%float)
  else Ok (float_of_ratio (xorb (a <? 0) (b <? 0)) (Z.abs a) (Z.abs b)).

(** *** [float(s)] on a string

    [[sign] (digitpart ["." [digitpart]] | "." digitpart) [exponent]],
    or [inf], [infinity], [nan] in any case, with surrounding
    whitespace stripped; a digitpart may hold single underscores
    between digits.  Anything else raises [ValueError]. *)

Definition is_space (c : ascii) : bool :=
  let n := nat_of_ascii c in
  (Nat.eqb n 32 || (Nat.leb 9 n && Nat.leb n 13)
   || (Nat.leb 28 n && Nat.leb n 31))%bool.

Fixpoint lstrip (s : string) : string :=
  match s with
  | String c s' => if is_space c then lstrip s' else s
  | EmptyString => EmptyString
  end.

Fixpoint rstrip (s : string) : string :=
  match s with
  | EmptyString => EmptyString
  | String c s' =>
      match rstrip s' with
      | EmptyString => if is_space c then EmptyString else String c EmptyString
      | r => String c r
      end
  end.

Definition strip (s : string) : string := rstrip (lstrip s).

Definition digit_val (c : ascii) : option Z :=
  let n := nat_of_ascii c in
  if (Nat.leb 48 n && Nat.leb n 57)%bool then Some (Z.of_nat (n - 48))
  else None.

Definition starts_with_digit (s : string) : bool :=
  match s with
  | String c _ => match digit_val c with Some _ => true | None => false end
  | EmptyString => false
  end.

(** Reads a (possibly empty) digitpart: the accumulated value, the
    number of digits read, and what is left. *)
Fixpoint read_digits (s : string) (acc : Z) (cnt : Z) : Z * Z * string :=
  match s with
  | EmptyString => (acc, cnt, s)
  | String c s' =>
      match digit_val c with
      | Some d => read_digits s' (acc * 10 + d) (cnt + 1)
      | None =>
          if (Ascii.eqb c "_" && (0 <? cnt) && starts_with_digit s')%bool
          then read_digits s' acc cnt
          else (acc, cnt, s)
      end
  end.

Definition read_sign (s : string) : bool * string :=
  match s with
  | String "-" s' => (true, s')
  | String "+" s' => (false, s')
  | _ => (false, s)
  end.

(** The exponent part, if any: its value and what is left. *)
Definition read_exponent (s : string) : option (Z * string) :=
  match s with
  | String c s' =>
      if (Ascii.eqb c "e" || Ascii.eqb c "E")%bool then
        let '(neg, s1) := read_sign s' in
        let '(v, n, rest) := read_digits s1 0 0 in
        if n =? 0 then None else Some (if neg then - v else v, rest)
      else Some (0, s)
  | EmptyString => Some (0, s)
  end.

(** The float nearest to [(-1)^neg * m * 10^k], [m >= 0]. *)
Definition float_of_decimal (neg : bool) (m k : Z) : float :=
  if m =? 0 then (if neg then (-0)%float else 0%float)
  else if 0 <=? k then float_of_ratio neg (m * 10 ^ k) 1
  else float_of_ratio neg m (10 ^ (- k)).

Definition float_literal_error (s : string) : exn :=
  Exn ValueError ("could not convert string to float: '" ++ s ++ "'")%string.

Definition float_of_str (s : string) : result float :=
  let '(neg, body) := read_sign (strip s) in
  let word := lower body in
  if (String.eqb word "inf" || String.eqb word "infinity")%bool
  then Ok (if neg then neg_infinity else infinity)
  else if String.eqb word "nan" then Ok nan
  else
    let '(ip, ni, s1) := read_digits body 0 0 in
    let '(m, nf, s2) :=
      match s1 with
      | String "." s1' => read_digits s1' ip 0
      | _ => (ip, 0, s1)
      end in
    if ni + nf =? 0 then Raise (float_literal_error s)
    else
      match read_exponent s2 with
      | Some (ex, EmptyString) => Ok (float_of_decimal neg m (ex - nf))
      | _ => Raise (float_literal_error s)
      end.

(** ** Dates

    A [datetime] is kept as the proleptic Gregorian ordinal of its day
    (1 is 0001-01-01, [MAXORDINAL] is 9999-12-31); subtracting whole
    days leaves the time of day alone. *)

Definition MAXORDINAL : Z := 3652059.

(** [timedelta(days=d)] *)
Definition timedelta_days (d : Z) : result Z :=
  if Z.abs d <=? 999999999 then Ok d
  else Raise (Exn OverflowError "days; must have magnitude <= 999999999").

(** [now - timedelta(days=d)], [now] falling on day [today] *)
Definition datetime_sub_days (today d : Z) : result Z :=
  bind (timedelta_days d) (fun delta =>
  let o := today - delta in
  if ((0 <? o) && (o <=? MAXORDINAL))%bool then Ok o
  else Raise (Exn OverflowError "date value out of range")).

End Py.

Import Py.

Declare Scope py_scope.
Notation "x <- c ;; k" := (Py.bind c (fun x => k))
(at level 61, c at next level, right associativity) : py_scope.
Local Open Scope py_scope.

(* ================================================================== *)
(** * discover_models.py *)
(* ================================================================== *)

(** ** Catalog records, as [GET /models] returns them *)

Module Catalog.

Record Pricing : Type := {
  prompt : option string;
  completion : option string
}.

Record Architecture : Type := {
  modality : option string
}.

Record ModelRecord : Type := {
  id : string;
  name : option string;
  description : option string;
  pricing : option Pricing;
  context_length : option Z;
  supported_parameters : option (list string);
  architecture : option Architecture;
  created : option Z
}.

(** The [{}] that [m.get('pricing', {})] and [m.get('architecture', {})]
    fall back to. *)
Definition no_pricing : Pricing := {| prompt := None; completion := None |}.
Definition no_architecture : Architecture := {| modality := None |}.

End Catalog.

(** ** Registry entries, as the exporter writes them *)

Module Config.

Record Entry : Type := {
  id : string;
  name : string;
  provider : string;
  modelId : string;
  description : string;
  capabilities : list string;
  enabled : bool
}.

End Config.

Module Discovery.

Import Catalog.

(** The keyword arguments of [filter_models], with their defaults. *)
Record FilterCriteria : Type := {
  has_tools : bool;
  has_vision : bool;
  has_reasoning : bool;
  max_input_price : option float;
  min_context_window : option Z;
  providers : option (list string);
  recent_days : option Z;
  search_term : option string
}.

Definition no_criteria : FilterCriteria := {|
  has_tools := false;
  has_vision := false;
  has_reasoning := false;
  max_input_price := None;
  min_context_window := None;
  providers := None;
  recent_days := None;
  search_term := None
|}.

(** *** The conditions of the comprehensions *)

Definition supports_tools (m : ModelRecord) : bool :=
  in_list "tools" (get_or (supported_parameters m) []).

Definition accepts_images (m : ModelRecord) : bool :=
  contains "image" (get_or (modality (get_or (architecture m) no_architecture)) "").

(** [float(m.get('pricing', {}).get('prompt', '999'))] *)
Definition prompt_price (m : ModelRecord) : result float :=
  float_of_str (get_or (prompt (get_or (pricing m) no_pricing)) "999").

Definition within_price (max_price : float) (m : ModelRecord) : result bool :=
  price <- prompt_price m ;;
  Ok (price * 1000000 <=? max_price)%float.

Definition has_context (min_ctx : Z) (m : ModelRecord) : bool :=
  min_ctx <=? get_or (context_length m) 0.

Definition from_provider (provider_lower : list string) (m : ModelRecord) : bool :=
  any (fun prov => contains prov (lower (id m))) provider_lower.

(** [m.get('created', 0) or 0] *)
Definition created_key (m : ModelRecord) : Z :=
  let c := get_or (created m) 0 in
  if c =? 0 then 0 else c.

Definition matches_search (search_lower : string) (m : ModelRecord) : bool :=
  (contains search_lower (lower (id m))
   || contains search_lower (lower (get_or (name m) "")))%bool.

(** *** The steps of [filter_models], one per [if] of the source *)

Definition step_tools (flag : bool) (filtered : list ModelRecord) :=
  if flag then filter supports_tools filtered else filtered.

Definition step_vision (flag : bool) (filtered : list ModelRecord) :=
  if flag then filter accepts_images filtered else filtered.

Definition step_max_price (max_price : option float) (filtered : list ModelRecord)
  : result (list ModelRecord) :=
  match max_price with
  | Some p => filter_exc (within_price p) filtered
  | None => Ok filtered
  end.

Definition step_min_context (min_ctx : option Z) (filtered : list ModelRecord) :=
  match min_ctx with
  | Some n => if n =? 0 then filtered else filter (has_context n) filtered
  | None => filtered
  end.

Definition step_providers (provs : option (list string)) (filtered : list ModelRecord) :=
  match provs with
  | Some ((_ :: _) as ps) =>
      let provider_lower := map lower ps in
      filter (from_provider provider_lower) filtered
  | _ => filtered
  end.

Definition step_recent (today : Z) (days : option Z) (filtered : list ModelRecord)
  : result (list ModelRecord) :=
  match days with
  | Some d =>
      if d =? 0 then Ok filtered
      else
        cutoff_date <- datetime_sub_days today d ;;
        Ok (slice_to 50 (sorted_reverse created_key filtered))
  | None => Ok filtered
  end.

Definition step_search (term : option string) (filtered : list ModelRecord) :=
  match term with
  | Some t =>
      if String.eqb t "" then filtered
      else
        let search_lower := lower t in
        filter (matches_search search_lower) filtered
  | None => filtered
  end.

(** What is left when the recency step is reached. *)
Definition before_recent (models : list ModelRecord) (c : FilterCriteria)
  : result (list ModelRecord) :=
  let filtered := models in
  let filtered := step_tools (has_tools c) filtered in
  let filtered := step_vision (has_vision c) filtered in
  filtered <- step_max_price (max_input_price c) filtered ;;
  let filtered := step_min_context (min_context_window c) filtered in
  let filtered := step_providers (providers c) filtered in
  Ok filtered.

(** [today] is the day [datetime.now()] falls on. *)
Definition filter_models (today : Z) (models : list ModelRecord)
  (c : FilterCriteria) : result (list ModelRecord) :=
  filtered <- before_recent models c ;;
  filtered <- step_recent today (recent_days c) filtered ;;
  let filtered := step_search (search_term c) filtered in
  Ok filtered.

(** *** Criteria that impose nothing *)

(** A criterion the source treats as absent: [None], and also the
    values Python finds false. *)
Definition absent_Z (o : option Z) : bool :=
  match o with Some n => n =? 0 | None => true end.

Definition absent_list (o : option (list string)) : bool :=
  match o with Some [] | None => true | Some (_ :: _) => false end.

Definition absent_str (o : option string) : bool :=
  match o with Some s => String.eqb s "" | None => true end.

Definition absent_price (o : option float) : bool :=
  match o with Some _ => false | None => true end.

Definition every_field_absent (c : FilterCriteria) : bool :=
  (negb (has_tools c) && negb (has_vision c)
   && absent_price (max_input_price c)
   && absent_Z (min_context_window c)
   && absent_list (providers c)
   && absent_Z (recent_days c)
   && absent_str (search_term c))%bool.

(** *** Criteria with one field present *)

Definition only_recent (days : Z) : FilterCriteria :=
  {| has_tools := false; has_vision := false; has_reasoning := false;
     max_input_price := None; min_context_window := None;
     providers := None; recent_days := Some days; search_term := None |}.

Definition only_max_price (max_price : float) : FilterCriteria :=
  {| has_tools := false; has_vision := false; has_reasoning := false;
     max_input_price := Some max_price; min_context_window := None;
     providers := None; recent_days := None; search_term := None |}.

(** *** [export_to_config_format] *)

Definition provider_map : list (string * string) :=
  [ ("openai", "OpenAI");
    ("anthropic", "Anthropic");
    ("google", "Google");
    ("meta-llama", "Meta");
    ("deepseek", "DeepSeek");
    ("qwen", "Qwen");
    ("mistralai", "Mistral");
    ("cohere", "Cohere");
    ("x-ai", "xAI");
    ("perplexity", "Perplexity") ].

(** [for key, value in items: if key in model_id.lower(): provider = value; break] *)
Fixpoint scan_provider (items : list (string * string)) (model_id : string)
  (provider : string) : string :=
  match items with
  | [] => provider
  | (key, value) :: rest =>
      if contains key (lower model_id) then value
      else scan_provider rest model_id provider
  end.

Definition provider_of (model_id : string) : string :=
  scan_provider provider_map model_id "Unknown".

(** The friendly ID. *)
Definition local_id (catalog_id : string) : string :=
  let model_id := replace_char "/" "-" catalog_id in
  if negb (startswith model_id "or-") then ("or-" ++ model_id)%string
  else model_id.

Definition capabilities_of (model : ModelRecord) : list string :=
  let capabilities := [] in
  let params := get_or (supported_parameters model) [] in
  let capabilities :=
    if (in_list "tools" params || in_list "functions" params)%bool
    then capabilities ++ ["Tools"] else capabilities in
  let modality := get_or (modality (get_or (architecture model) no_architecture)) "" in
  let capabilities :=
    if contains "image" modality then capabilities ++ ["Vision"] else capabilities in
  let capabilities :=
    if (contains ":thinking" (id model)
        || contains "reasoning" (lower (get_or (description model) "")))%bool
    then capabilities ++ ["Reasoning"] else capabilities in
  capabilities ++ ["Streaming"].

(** One turn of the loop: the [config_model] built for [model]. *)
Definition config_model_of (model : ModelRecord) : Config.Entry :=
  let provider := provider_of (id model) in
  {| Config.id := local_id (id model);
     Config.name := get_or (name model) (id model);
     Config.provider := provider;
     Config.modelId := id model;
     Config.description :=
       get_or (description model)
              (get_or (name model) "Model" ++ " from " ++ provider)%string;
     Config.capabilities := capabilities_of model;
     Config.enabled := false |}.

(** The loop: [config_models.append(config_model)] for each model. *)
Definition export_loop (models : list ModelRecord) : list Config.Entry :=
  fold_left (fun config_models model => config_models ++ [config_model_of model])
            models [].

(** The file the export leaves behind. *)
Record FileWrite : Type := {
  path : string;
  content : list Config.Entry
}.

Definition export_to_config_format (models : list ModelRecord)
  (output_file : string) : FileWrite :=
  let config_models := export_loop models in
  {| path := output_file; content := config_models |}.

End Discovery.

(* ================================================================== *)
(** * validate_models.py *)
(* ================================================================== *)

Module Validation.

(** What [test_model_exists] hands back next to its flag: the catalog
    record, or [{"similar_models": [...]}]. *)
Inductive ModelInfo : Type :=
| Found (m : Catalog.ModelRecord)
| NotFound (similar_models : list string).

(** The [result] dict of [validate_config_model]. *)
Record ValidationResult : Type := {
  id : string;
  name : string;
  modelId : string;
  exists_ : bool;
  callable : bool;
  error : option string;
  model_info : option ModelInfo;
  suggestion : option string
}.

Definition set_exists (v : bool) (r : ValidationResult) :=
  {| id := id r; name := name r; modelId := modelId r; exists_ := v;
     callable := callable r; error := error r; model_info := model_info r;
     suggestion := suggestion r |}.

Definition set_callable (v : bool) (r : ValidationResult) :=
  {| id := id r; name := name r; modelId := modelId r; exists_ := exists_ r;
     callable := v; error := error r; model_info := model_info r;
     suggestion := suggestion r |}.

Definition set_error (v : option string) (r : ValidationResult) :=
  {| id := id r; name := name r; modelId := modelId r; exists_ := exists_ r;
     callable := callable r; error := v; model_info := model_info r;
     suggestion := suggestion r |}.

Definition set_model_info (v : option ModelInfo) (r : ValidationResult) :=
  {| id := id r; name := name r; modelId := modelId r; exists_ := exists_ r;
     callable := callable r; error := error r; model_info := v;
     suggestion := suggestion r |}.

Definition set_suggestion (v : option string) (r : ValidationResult) :=
  {| id := id r; name := name r; modelId := modelId r; exists_ := exists_ r;
     callable := callable r; error := error r; model_info := model_info r;
     suggestion := v |}.

(** What the flags and the error of a result may say together. *)
Definition consistent (r : ValidationResult) : Prop :=
  (callable r = true -> exists_ r = true)
  /\ (error r <> None -> exists_ r = true /\ callable r = false).

End Validation.

Module Validator.

Import Validation.

(** ** The remote service *)

(** [models_endpoint] is the outcome of [GET /models] (the decoded
    [data] list, or the exception of the request); [chat_completion n m]
    is the outcome of the probe sent to model [m] after [n] earlier
    probes: the content of the first choice, or the exception. *)
Record Remote : Type := {
  models_endpoint : result (list Catalog.ModelRecord);
  chat_completion : nat -> string -> result (option string)
}.

(** ** The lookup dictionary: insertion-ordered, one value per key *)

Definition dict : Type := list (string * Catalog.ModelRecord).

Fixpoint dict_set (d : dict) (k : string) (v : Catalog.ModelRecord) : dict :=
  match d with
  | [] => [(k, v)]
  | (k', v') :: d' =>
      if String.eqb k' k then (k, v) :: d' else (k', v') :: dict_set d' k v
  end.

Fixpoint dict_get (d : dict) (k : string) : option Catalog.ModelRecord :=
  match d with
  | [] => None
  | (k', v) :: d' => if String.eqb k' k then Some v else dict_get d' k
  end.

Definition dict_keys (d : dict) : list string := map fst d.

(** [{model['id']: model for model in data}] *)
Definition models_by_id (data : list Catalog.ModelRecord) : dict :=
  fold_left (fun d model => dict_set d (Catalog.id model) model) data [].

(** ** The validator object

    [available_models] is the attribute of the source; [probes] records
    the models [chat.completions.create] was called for, oldest first. *)
Record State : Type := {
  available_models : option dict;
  probes : list string
}.

Definition init : State := {| available_models := None; probes := [] |}.

Definition fetch_available_models (remote : Remote) : dict :=
  match models_endpoint remote with
  | Ok data => models_by_id data
  | Raise _ => []
  end.

Definition test_model_exists (remote : Remote) (model_id : string) (st : State)
  : (bool * ModelInfo) * State :=
  let models :=
    match available_models st with
    | None => fetch_available_models remote
    | Some d => d
    end in
  let st := {| available_models := Some models; probes := probes st |} in
  match dict_get models model_id with
  | Some m => ((true, Found m), st)
  | None =>
      let similar :=
        filter (fun m => contains (lower model_id) (lower m)) (dict_keys models) in
      ((false, NotFound (slice_to 5 similar)), st)
  end.

Definition test_model_call (remote : Remote) (model_id : string) (st : State)
  : (bool * string) * State :=
  let st' := {| available_models := available_models st;
                probes := probes st ++ [model_id] |} in
  match chat_completion remote (List.length (probes st)) model_id with
  | Ok content =>
      let text := match content with
                  | Some t => if String.eqb t "" then "Success" else t
                  | None => "Success"
                  end in
      ((true, text), st')
  | Raise e => ((false, exn_str e), st')
  end.

Definition validate_config_model (remote : Remote) (model_config : Config.Entry)
  (st : State) : ValidationResult * State :=
  let model_id := Config.id model_config in
  let model_name := Config.name model_config in
  let openrouter_id := Config.modelId model_config in
  let result :=
    {| id := model_id; name := model_name; modelId := openrouter_id;
       exists_ := false; callable := false; error := None;
       model_info := None; suggestion := None |} in
  (* Test 1 *)
  let '((found, info), st) := test_model_exists remote openrouter_id st in
  let result := set_exists found result in
  let result := set_model_info (Some info) result in
  if negb found then
    let result :=
      match info with
      | NotFound ((_ :: _) as similar_models) =>
          set_suggestion
            (Some ("Try one of: " ++ join ", " (slice_to 3 similar_models))%string)
            result
      | _ => result
      end in
    (result, st)
  else
    (* Test 2 *)
    let '((callable_result, response), st) := test_model_call remote openrouter_id st in
    let result := set_callable callable_result result in
    let result :=
      if callable_result then result else set_error (Some response) result in
    (result, st).

(** ** The summary *)

Definition has_issue (r : ValidationResult) : bool :=
  (negb (exists_ r) || negb (callable r))%bool.

Definition works (r : ValidationResult) : bool :=
  (exists_ r && callable r)%bool.

Definition count {A : Type} (p : A -> bool) (l : list A) : Z :=
  Z.of_nat (List.length (filter p l)).

Record Summary : Type := {
  total : Z;
  exists_count : Z;
  callable_count : Z;
  exists_percent : float;
  callable_percent : float;
  issues : list ValidationResult;
  working : list ValidationResult
}.

(** What [print_summary] computes for its lines, in the order it
    prints them. *)
Definition print_summary (results : list ValidationResult) : result Summary :=
  let total := Z.of_nat (List.length results) in
  let exists_count := count exists_ results in
  let callable_count := count callable results in
  e <- truediv exists_count total ;;
  c <- truediv callable_count total ;;
  let failed := filter has_issue results in
  let success := filter works results in
  Ok {| total := total; exists_count := exists_count;
        callable_count := callable_count;
        exists_percent := (e * 100)%float;
        callable_percent := (c * 100)%float;
        issues := failed; working := success |}.

(** ** [main] *)

(** [config/models.config.json], as [load_config] finds it. *)
Record Registry : Type := {
  version : option string;
  defaultModel : option string;
  models : option (list Config.Entry)
}.

Inductive ConfigFile : Type :=
| FileNotFound
| InvalidJSON
| Loaded (config : Registry).

(** [model_validation_report.json]; [success_rate] is the number the
    source formats to one decimal. *)
Record Report : Type := {
  total_tested : Z;
  failed_models : list ValidationResult;
  success_rate : float
}.

(** How the process ends: [sys.exit(code)], or an exception nothing
    catches (the interpreter then prints it and leaves with status 1). *)
Inductive Termination : Type :=
| Exit (code : Z)
| Uncaught (e : exn).

Definition exit_status (t : Termination) : Z :=
  match t with
  | Exit code => code
  | Uncaught _ => 1
  end.

Record Run : Type := {
  termination : Termination;
  results : list ValidationResult;
  report_file : option Report;
  probes_sent : list string
}.

(** [for model in ...: results.append(validator.validate_config_model(model))] *)
Fixpoint validate_all (remote : Remote) (entries : list Config.Entry)
  (results : list ValidationResult) (st : State)
  : list ValidationResult * State :=
  match entries with
  | [] => (results, st)
  | model :: rest =>
      let '(result, st) := validate_config_model remote model st in
      validate_all remote rest (results ++ [result]) st
  end.

(** [api_key] is what the environment, then [.env], gave. *)
Definition main (api_key : option string) (file : ConfigFile) (remote : Remote)
  : Run :=
  let stop t rs rep st :=
    {| termination := t; results := rs; report_file := rep;
       probes_sent := probes st |} in
  match api_key with
  | None | Some "" => stop (Exit 1) [] None init
  | Some _ =>
      match file with
      | FileNotFound | InvalidJSON => stop (Exit 1) [] None init
      | Loaded config =>
          let validator := init in
          let '(results, validator) :=
            validate_all remote (get_or (models config) []) [] validator in
          match print_summary results with
          | Raise e => stop (Uncaught e) results None validator
          | Ok _ =>
              let failed := filter has_issue results in
              match failed with
              | _ :: _ =>
                  let n := Z.of_nat (List.length results) in
                  match truediv (n - Z.of_nat (List.length failed)) n with
                  | Raise e => stop (Uncaught e) results None validator
                  | Ok rate =>
                      let report :=
                        {| total_tested := n; failed_models := failed;
                           success_rate := (rate * 100)%float |} in
                      stop (Exit 1) results (Some report) validator
                  end
              | [] => stop (Exit 0) results None validator
              end
          end
      end
  end.

End Validator.

(* ================================================================== *)
(** * The rest of the two programs *)
(* ================================================================== *)

(** ** More of the runtime: splitting and stripping text, slices *)

Module Text.

Definition quote : ascii := ascii_of_nat 34.
Definition apostrophe : ascii := ascii_of_nat 39.
Definition newline : ascii := ascii_of_nat 10.

(** [s.strip(c)] for a one-character [c] *)
Fixpoint lstrip_char (c : ascii) (s : string) : string :=
  match s with
  | String d s' => if Ascii.eqb d c then lstrip_char c s' else s
  | EmptyString => EmptyString
  end.

Fixpoint rstrip_char (c : ascii) (s : string) : string :=
  match s with
  | EmptyString => EmptyString
  | String d s' =>
      match rstrip_char c s' with
      | EmptyString => if Ascii.eqb d c then EmptyString else String d EmptyString
      | r => String d r
      end
  end.

Definition strip_char (c : ascii) (s : string) : string :=
  rstrip_char c (lstrip_char c s).

(** [s.split(sep, 1)] for a one-character [sep]: one part, or the parts
    before and after the first [sep]. *)
Fixpoint split_once (sep : ascii) (s : string) : list string :=
  match s with
  | EmptyString => [EmptyString]
  | String c s' =>
      if Ascii.eqb c sep then [EmptyString; s']
      else match split_once sep s' with
           | first :: parts => String c first :: parts
           | [] => []
           end
  end.

(** The lines a text file yields when iterated: each keeps its newline,
    the last one may lack it. *)
Fixpoint file_lines_from (current : string) (content : string) : list string :=
  match content with
  | EmptyString =>
      match current with
      | EmptyString => []
      | _ => [current]
      end
  | String c rest =>
      if Ascii.eqb c newline
      then (current ++ String c EmptyString)%string :: file_lines_from EmptyString rest
      else file_lines_from (current ++ String c EmptyString)%string rest
  end.

Definition file_lines (content : string) : list string :=
  file_lines_from EmptyString content.

(** [l[:n]] for any integer [n]: a negative [n] counts from the end. *)
Definition slice_to_int {A : Type} (n : Z) (l : list A) : list A :=
  if 0 <=? n then firstn (Z.to_nat n) l
  else firstn (List.length l - Z.to_nat (- n)) l.

(** How a call ends: it returns, it leaves through [sys.exit], or an
    exception nobody catches ends the program. *)
Inductive crash : Type :=
| Exception (e : exn)
| IndexError (msg : string).

Inductive outcome (A : Type) : Type :=
| Returns (a : A)
| SysExit (code : Z)
| Crashes (c : crash).
Arguments Returns {A} a.
Arguments SysExit {A} code.
Arguments Crashes {A} c.

Definition of_result {A : Type} (r : result A) : outcome A :=
  match r with
  | Ok a => Returns a
  | Raise e => Crashes (Exception e)
  end.

(** [if x:] on an optional string: [None] and the empty string are false. *)
Definition truthy (o : option string) : bool :=
  match o with
  | Some s => negb (String.eqb s "")
  | None => false
  end.

End Text.

(** ** The API key: [get_api_key], and the same lines at the head of the
    validator's [main] *)

Module Credentials.

Import Text.

(** What the key is looked up in: the value of the environment variable
    (if set), and the text of [.env] (if the file exists). *)
Record Sources : Type := {
  environment : option string;
  dotenv : option string
}.

(** [line.split('=', 1)[1]], stripped of whitespace, then of double
    quotes, then of single quotes. *)
Definition value_of_line (line : string) : outcome string :=
  match nth_error (split_once "=" line) 1 with
  | Some v => Returns (strip_char apostrophe (strip_char quote (strip v)))
  | None => Crashes (IndexError "list index out of range")
  end.

(** The loop over the lines: the [api_key] it leaves, [None] when no
    line assigned it. *)
Fixpoint scan_lines (lines : list string) : outcome (option string) :=
  match lines with
  | [] => Returns None
  | line :: rest =>
      if (negb (String.eqb (strip line) "") && negb (startswith line "#"))%bool
      then
        if contains "OPENROUTER_API_KEY" line
        then match value_of_line line with
             | Returns v => Returns (Some v)
             | SysExit code => SysExit code
             | Crashes c => Crashes c
             end
        else scan_lines rest
      else scan_lines rest
  end.

(** The [api_key] variable when the [if not api_key: ... sys.exit(1)]
    test is reached. *)
Definition resolve_api_key (src : Sources) : outcome (option string) :=
  let api_key := environment src in
  if negb (truthy api_key) then
    match dotenv src with
    | Some content =>
        match scan_lines (file_lines content) with
        | Returns (Some v) => Returns (Some v)
        | Returns None => Returns api_key
        | SysExit code => SysExit code
        | Crashes c => Crashes c
        end
    | None => Returns api_key
    end
  else Returns api_key.

Definition get_api_key (src : Sources) : outcome string :=
  match resolve_api_key src with
  | Returns api_key =>
      if negb (truthy api_key) then SysExit 1
      else Returns (get_or api_key "")
  | SysExit code => SysExit code
  | Crashes c => Crashes c
  end.

End Credentials.

(** ** The discovery program: fetching, displaying, [main] *)

Module DiscoveryProgram.

Import Text Catalog Discovery.

(** The [ModelDiscovery] object: its cache, and how many times it asked
    the models endpoint. *)
Record State : Type := {
  models_cache : option (list ModelRecord);
  requests_sent : nat
}.

Definition init : State := {| models_cache := None; requests_sent := 0 |}.

(** [endpoint] is the outcome of [GET /models]: the decoded [data] list,
    or the exception of the request. *)
Definition fetch_all_models (endpoint : result (list ModelRecord))
  (force_refresh : bool) (st : State) : outcome (list ModelRecord) * State :=
  let request :=
    match endpoint with
    | Ok data =>
        (Returns data,
         {| models_cache := Some data; requests_sent := S (requests_sent st) |})
    | Raise _ =>
        (SysExit 1,
         {| models_cache := models_cache st; requests_sent := S (requests_sent st) |})
    end in
  match models_cache st with
  | Some ((_ :: _) as cache) =>
      if negb force_refresh then (Returns cache, st) else request
  | _ => request
  end.

(** What [display_models] prints for one model. *)
Record Row : Type := {
  index : Z;
  shown_name : string;
  shown_id : string;
  prompt_price : float;
  completion_price : float;
  context : Z;
  caps : list string
}.

(** [float(pricing.get(key, 0)) * 1000000] *)
Definition shown_price (field : option string) : result float :=
  price <- match field with
           | Some text => float_of_str text
           | None => Ok 0%float
           end ;;
  Ok (price * 1000000)%float.

Definition caps_of (model : ModelRecord) : list string :=
  let params := get_or (supported_parameters model) [] in
  let caps := [] in
  let caps := if in_list "tools" params then caps ++ ["🔧 Tools"] else caps in
  let caps :=
    if in_list "response_format" params then caps ++ ["📋 Structured"] else caps in
  let modality := get_or (modality (get_or (architecture model) no_architecture)) "" in
  let caps := if contains "image" modality then caps ++ ["👁️ Vision"] else caps in
  caps.

Definition row_of (idx : Z) (model : ModelRecord) : result Row :=
  let pricing := get_or (pricing model) no_pricing in
  prompt_price <- shown_price (prompt pricing) ;;
  completion_price <- shown_price (completion pricing) ;;
  Ok {| index := idx;
        shown_name := get_or (name model) "Unknown";
        shown_id := id model;
        prompt_price := prompt_price;
        completion_price := completion_price;
        context := get_or (context_length model) 0;
        caps := caps_of model |}.

(** [for idx, model in enumerate(shown, 1)] *)
Fixpoint rows_from (idx : Z) (shown : list ModelRecord) : result (list Row) :=
  match shown with
  | [] => Ok []
  | model :: rest =>
      row <- row_of idx model ;;
      rows <- rows_from (idx + 1) rest ;;
      Ok (row :: rows)
  end.

(** What [display_models] puts on the console: the count of the header,
    the rows, and the count of the closing "... and N more models" line
    when there is one. *)
Record Display : Type := {
  found : Z;
  rows : list Row;
  more : option Z
}.

Definition display_models (models : list ModelRecord) (limit : Z) : result Display :=
  let n := Z.of_nat (List.length models) in
  rows <- rows_from 1 (slice_to_int limit models) ;;
  Ok {| found := n;
        rows := rows;
        more := if limit <? n then Some (n - limit) else None |}.

(** The parsed command line. *)
Record Args : Type := {
  tools : bool;
  vision : bool;
  reasoning : bool;
  max_price : option float;
  min_context : option Z;
  provider : option (list string);
  recent : option Z;
  search : option string;
  limit : Z;
  export : option string
}.

Definition criteria_of (args : Args) : FilterCriteria :=
  {| has_tools := tools args;
     has_vision := vision args;
     has_reasoning := reasoning args;
     max_input_price := max_price args;
     min_context_window := min_context args;
     providers := provider args;
     recent_days := recent args;
     search_term := search args |}.

(** What a run of the program leaves: the models it found, what it
    displayed, and the file it exported, if any. *)
Record Run : Type := {
  filtered_models : list ModelRecord;
  displayed : Display;
  exported : option FileWrite
}.

Definition main (src : Credentials.Sources) (args : Args)
  (endpoint : result (list ModelRecord)) (today : Z) : outcome Run :=
  match Credentials.get_api_key src with
  | Returns api_key =>
      let discovery := init in
      match fst (fetch_all_models endpoint false discovery) with
      | Returns all_models =>
          match filter_models today all_models (criteria_of args) with
          | Ok filtered =>
              match display_models filtered (limit args) with
              | Ok shown =>
                  let file :=
                    if truthy (export args)
                    then Some (export_to_config_format filtered
                                 (get_or (export args) ""))
                    else None in
                  Returns {| filtered_models := filtered;
                             displayed := shown;
                             exported := file |}
              | Raise e => Crashes (Exception e)
              end
          | Raise e => Crashes (Exception e)
          end
      | SysExit code => SysExit code
      | Crashes c => Crashes c
      end
  | SysExit code => SysExit code
  | Crashes c => Crashes c
  end.

End DiscoveryProgram.

(** ** The validation program from the key lookup on *)

Module ValidatorProgram.

Import Text.

(** The lines at the head of the validator's [main] look the key up as
    [get_api_key] does; what follows is [Validator.main]. *)
Definition run (src : Credentials.Sources) (file : Validator.ConfigFile)
  (remote : Validator.Remote) : outcome Validator.Run :=
  match Credentials.resolve_api_key src with
  | Returns api_key => Returns (Validator.main api_key file remote)
  | SysExit code => SysExit code
  | Crashes c => Crashes c
  end.

End ValidatorProgram.

(** ** Notions the statements about the rest of the code use *)

Module Notions.

Import Catalog Discovery.

(** [l1] is [l2] with some elements left out, the others in their order. *)
Inductive subseq {A : Type} : list A -> list A -> Prop :=
| subseq_nil : subseq [] []
| subseq_skip (x : A) (l1 l2 : list A) : subseq l1 l2 -> subseq l1 (x :: l2)
| subseq_keep (x : A) (l1 l2 : list A) : subseq l1 l2 -> subseq (x :: l1) (x :: l2).

(** The condition each boolean step of [filter_models] puts on a record
    under criteria [c]: the condition of its comprehension when the [if]
    of the step is taken, nothing otherwise. *)
Definition passes_tools (c : FilterCriteria) (m : ModelRecord) : bool :=
  if has_tools c then supports_tools m else true.

Definition passes_vision (c : FilterCriteria) (m : ModelRecord) : bool :=
  if has_vision c then accepts_images m else true.

Definition passes_price (c : FilterCriteria) (m : ModelRecord) : bool :=
  match max_input_price c with
  | Some p => answer (within_price p) m
  | None => true
  end.

Definition passes_context (c : FilterCriteria) (m : ModelRecord) : bool :=
  match min_context_window c with
  | Some n => if n =? 0 then true else has_context n m
  | None => true
  end.

Definition passes_providers (c : FilterCriteria) (m : ModelRecord) : bool :=
  match providers c with
  | Some ((_ :: _) as ps) => from_provider (map lower ps) m
  | _ => true
  end.

Definition passes_search (c : FilterCriteria) (m : ModelRecord) : bool :=
  match search_term c with
  | Some t => if String.eqb t "" then true else matches_search (lower t) m
  | None => true
  end.

(** The conditions of the steps before the recency step, together. *)
Definition passes_early (c : FilterCriteria) (m : ModelRecord) : bool :=
  (passes_tools c m && passes_vision c m && passes_price c m
   && passes_context c m && passes_providers c m)%bool.

Definition passes (c : FilterCriteria) (m : ModelRecord) : bool :=
  (passes_tools c m && passes_vision c m && passes_price c m
   && passes_context c m && passes_providers c m && passes_search c m)%bool.






End Notions.

(* ================================================================== *)
(** * Sample inputs *)
(* ================================================================== *)

Module Samples.

Import Catalog Discovery.

(** A catalog record with an identifier, a prompt price and a creation
    time, and nothing else. *)
Definition record (model_id : string) (price : option string)
  (created_at : option Z) : ModelRecord :=
  {| id := model_id; name := None; description := None;
     pricing := Some {| prompt := price; completion := None |};
     context_length := None; supported_parameters := None;
     architecture := None; created := created_at |}.

(** The n-th of a run of records: identifier [model-] and one more
    character, created at second [n]. *)
Definition numbered (n : nat) : ModelRecord :=
  record ("model-" ++ String (ascii_of_nat (48 + n)) "")%string
         (Some "0.000001") (Some (Z.of_nat n)).

(** Fifty-one records, oldest first. *)
Definition fifty_one : list ModelRecord := map numbered (seq 1 51).

(** The day the examples run on: 2026-11-04. *)
Definition today : Z := 739924.

End Samples.

(** ** More sample inputs *)

Module MoreSamples.

Import Catalog Discovery.

(** A record with every field present: tools, structured output, image
    input, a price and a creation time. *)
Definition capable (model_id : string) : ModelRecord :=
  {| id := model_id; name := Some "Capable"; description := Some "A Reasoning model";
     pricing := Some {| prompt := Some "0.000003"; completion := Some "0.000015" |};
     context_length := Some 200000;
     supported_parameters := Some ["tools"; "response_format"];
     architecture := Some {| modality := Some "text+image->text" |};
     created := Some 1700000000 |}.

(** A record whose completion price is no number. *)
Definition odd_price (model_id : string) : ModelRecord :=
  {| id := model_id; name := None; description := None;
     pricing := Some {| prompt := Some "0.000001"; completion := Some "n/a" |};
     context_length := None; supported_parameters := None;
     architecture := None; created := None |}.

Definition catalog : list ModelRecord :=
  [ capable "anthropic/claude-x";
    Samples.record "openai/gpt-y" (Some "0.000001") (Some 5);
    capable "google/gemini-z" ].

Definition tools_and_vision : FilterCriteria :=
  {| has_tools := true; has_vision := true; has_reasoning := false;
     max_input_price := None; min_context_window := None;
     providers := None; recent_days := None; search_term := None |}.

(** A service that lists [catalog] and answers every probe. *)
Definition healthy : Validator.Remote :=
  {| Validator.models_endpoint := Ok catalog;
     Validator.chat_completion := fun _ _ => Ok (Some "OK") |}.

(** A service whose models endpoint fails. *)
Definition unreachable : Validator.Remote :=
  {| Validator.models_endpoint := Raise (Exn RemoteError "503 Service Unavailable");
     Validator.chat_completion := fun _ _ => Ok (Some "OK") |}.

(** A registry entry for an upstream identifier. *)
Definition entry (local upstream : string) : Config.Entry :=
  {| Config.id := local; Config.name := "Entry"; Config.provider := "Unknown";
     Config.modelId := upstream; Config.description := "";
     Config.capabilities := ["Streaming"]; Config.enabled := true |}.

Definition registry (entries : list Config.Entry) : Validator.ConfigFile :=
  Validator.Loaded {| Validator.version := Some "1.0";
                      Validator.defaultModel := None;
                      Validator.models := Some entries |}.

Definition key_in_environment : Credentials.Sources :=
  {| Credentials.environment := Some "sk-or-v1-0123456789abcdef";
     Credentials.dotenv := None |}.

Definition no_key : Credentials.Sources :=
  {| Credentials.environment := None; Credentials.dotenv := None |}.

End MoreSamples.

(** ** Records the display can show *)

Module ProgramNotions.

Import Catalog DiscoveryProgram.

(** Both prices of the record convert: each is missing or a text that
    [float] accepts. *)
Definition displayable (m : ModelRecord) : Prop :=
  (exists p, shown_price (prompt (get_or (pricing m) no_pricing)) = Ok p)
  /\ (exists c, shown_price (completion (get_or (pricing m) no_pricing)) = Ok c).

End ProgramNotions.

(** ** The catalog a validator works with *)

Module ValidatorNotions.

Import Validator.

(** The dictionary lookups are made in: the cached one, or the one the
    first lookup will fetch. *)
Definition catalog_in_use (remote : Remote) (st : State) : dict :=
  match available_models st with
  | Some d => d
  | None => fetch_available_models remote
  end.

(** The record is listed under identifier [k]. *)
Definition has_id (k : string) (m : Catalog.ModelRecord) : bool :=
  String.eqb (Catalog.id m) k.

(** The catalog keys that would be suggested for [model_id]. *)
Definition similar_to (model_id : string) (d : dict) : list string :=
  filter (fun m => contains (lower model_id) (lower m)) (dict_keys d).

(** What a result says of its entry when lookups are made in [d]: found,
    with the record attached and nothing suggested; or absent, never
    probed, with up to five similar keys attached and up to three of
    them suggested. *)
Definition judged_in (d : dict) (r : Validation.ValidationResult) : Prop :=
  match dict_get d (Validation.modelId r) with
  | Some m =>
      Validation.exists_ r = true
      /\ Validation.model_info r = Some (Validation.Found m)
      /\ Validation.suggestion r = None
  | None =>
      Validation.exists_ r = false
      /\ Validation.callable r = false
      /\ Validation.error r = None
      /\ Validation.model_info r
         = Some (Validation.NotFound
                   (firstn 5 (similar_to (Validation.modelId r) d)))
      /\ Validation.suggestion r
         = match firstn 5 (similar_to (Validation.modelId r) d) with
           | [] => None
           | similar =>
               Some ("Try one of: " ++ join ", " (firstn 3 similar))%string
           end
  end.

End ValidatorNotions.

(* ================================================================== *)
(** * Facts about the runtime fragment *)
(* ================================================================== *)

Section StringFacts.

Lemma prefix_iff (p s : string) :
  String.prefix p s = true <-> exists rest, s = (p ++ rest)%string.
Proof.
  revert s; induction p as [|c p IH]; intros s; simpl.
  - split; [intros _; now exists s | now destruct s].
  - destruct s as [|d s]; simpl.
    + split; [discriminate | intros [rest H]; discriminate].
    + destruct (Ascii.ascii_dec c d) as [->|ne].
      * rewrite IH. split; intros [rest H]; exists rest.
        -- now rewrite H.
        -- now inversion H.
      * split; [discriminate | intros [rest H]; inversion H; congruence].
Qed.

Lemma contains_unfold (sub s : string) :
  contains sub s =
  if String.prefix sub s then true
  else match s with
       | EmptyString => false
       | String _ s' => contains sub s'
       end.
Proof. destruct s; reflexivity. Qed.

(** [sub in s] holds exactly when [s] is [before ++ sub ++ after]. *)
Lemma contains_iff (sub s : string) :
  contains sub s = true <->
  exists before after, s = (before ++ sub ++ after)%string.
Proof.
  induction s as [|c s IH]; rewrite contains_unfold.
  - destruct (String.prefix sub "") eqn:E.
    + split; [intros _ | reflexivity].
      apply prefix_iff in E. destruct E as [rest E]. now exists "", rest.
    + split; [discriminate|].
      intros [before [after H]].
      destruct before; simpl in H; [|discriminate].
      assert (String.prefix sub "" = true) by (apply prefix_iff; now exists after).
      congruence.
  - destruct (String.prefix sub (String c s)) eqn:E.
    + split; [intros _ | reflexivity].
      apply prefix_iff in E. destruct E as [rest E]. now exists "", rest.
    + rewrite IH. split.
      * intros [before [after H]]. exists (String c before), after.
        simpl. now rewrite H.
      * intros [before [after H]].
        destruct before as [|d before]; simpl in H.
        -- assert (String.prefix sub (String c s) = true)
             by (apply prefix_iff; now exists after).
           congruence.
        -- inversion H. now exists before, after.
Qed.

Lemma lower_char_idempotent (c : ascii) : lower_char (lower_char c) = lower_char c.
Proof.
  unfold lower_char. destruct (is_upper c) eqn:U; [|now rewrite U].
  unfold is_upper in *.
  apply andb_true_iff in U. destruct U as [U1 U2].
  apply Nat.leb_le in U1, U2.
  rewrite nat_ascii_embedding by lia.
  replace (Nat.leb (nat_of_ascii c + 32) 90) with false
    by (symmetry; apply Nat.leb_gt; lia).
  now rewrite andb_false_r.
Qed.

Lemma lower_idempotent (s : string) : lower (lower s) = lower s.
Proof.
  induction s as [|c s IH]; simpl; [reflexivity|].
  now rewrite lower_char_idempotent, IH.
Qed.

Lemma replace_char_absent (old new : ascii) (s : string) :
  old <> new -> contains (String old "") (replace_char old new s) = false.
Proof.
  intros ne. induction s as [|c s IH]; simpl; [reflexivity|].
  destruct (Ascii.eqb c old) eqn:E.
  - destruct (Ascii.ascii_dec old new); [contradiction | exact IH].
  - apply Ascii.eqb_neq in E.
    destruct (Ascii.ascii_dec old c); [congruence | exact IH].
Qed.

End StringFacts.

(* ================================================================== *)
(** * The config exporter *)
(* ================================================================== *)

Module ExportFacts.

Import Catalog Discovery.

Lemma export_loop_acc (models : list ModelRecord) (acc : list Config.Entry) :
  fold_left (fun config_models model => config_models ++ [config_model_of model])
            models acc
  = acc ++ map config_model_of models.
Proof.
  revert acc; induction models as [|m models IH]; intros acc; simpl.
  - now rewrite app_nil_r.
  - rewrite IH, <- app_assoc. reflexivity.
Qed.

(** The loop is a map: the i-th entry is built from the i-th record. *)
Lemma export_loop_map (models : list ModelRecord) :
  export_loop models = map config_model_of models.
Proof. unfold export_loop. now rewrite export_loop_acc. Qed.

Lemma streaming_last (m : ModelRecord) : In "Streaming" (capabilities_of m).
Proof. unfold capabilities_of. apply in_or_app. right. now left. Qed.

Lemma capabilities_closed (m : ModelRecord) :
  incl (capabilities_of m) ["Tools"; "Vision"; "Reasoning"; "Streaming"].
Proof.
  unfold capabilities_of.
  repeat match goal with |- context [if ?b then _ else _] => destruct b end;
    intros x Hx; simpl in *; intuition.
Qed.

(** ** The friendly ID *)

Lemma local_id_prefixed (s : string) : startswith (local_id s) "or-" = true.
Proof.
  unfold local_id.
  destruct (startswith (replace_char "/" "-" s) "or-") eqn:E; simpl; [exact E|].
  unfold startswith. apply prefix_iff. now exists (replace_char "/" "-" s).
Qed.

Lemma replace_char_fixed (old new : ascii) (s : string) :
  contains (String old "") s = false -> replace_char old new s = s.
Proof.
  induction s as [|c s IH]; [reflexivity|].
  rewrite contains_unfold. simpl.
  destruct (Ascii.ascii_dec old c) as [->|ne].
  - destruct s; discriminate.
  - intros H. rewrite (IH H).
    destruct (Ascii.eqb c old) eqn:E; [|reflexivity].
    apply Ascii.eqb_eq in E. congruence.
Qed.

Lemma contains_char_cons (c d : ascii) (s : string) :
  c <> d -> contains (String c "") (String d s) = contains (String c "") s.
Proof.
  intros ne. rewrite contains_unfold. simpl.
  destruct (Ascii.ascii_dec c d); [contradiction | reflexivity].
Qed.

(** Deriving the ID of a derived ID changes nothing: the prefix is
    never doubled. *)
Lemma local_id_idempotent (s : string) : local_id (local_id s) = local_id s.
Proof.
  assert (P := local_id_prefixed s).
  assert (R : replace_char "/" "-" (local_id s) = local_id s).
  { apply replace_char_fixed. unfold local_id.
    destruct (negb _).
    - change ("or-" ++ ?x)%string with (String "o" (String "r" (String "-" x))).
      rewrite !contains_char_cons by discriminate.
      now apply replace_char_absent.
    - now apply replace_char_absent. }
  unfold local_id at 1. rewrite R, P. reflexivity.
Qed.

(** ** The provider label *)





(** ** The claims on the exporter *)

(** C2 (as the spec states it, refuted): the spec expects the catalog
    identifier "or-custom/model" to come out as "or-or-custom-model";
    the prefix test of the source sees "or-custom-model" already
    starting with "or-" and adds nothing. *)
Lemma local_id_prefix_not_doubled :
  local_id "or-custom/model" <> "or-or-custom-model".
Proof. discriminate. Qed.

(** C2 (amended): "openai/gpt-4" is mapped to "or-openai-gpt-4" and the
    already-prefixed "or-custom/model" to "or-custom-model": slashes are
    replaced by dashes, and the prefix "or-" is added only when the
    result does not start with it already.  This is the [id] of the
    exported entry. *)
Theorem local_id_examples :
  local_id "openai/gpt-4" = "or-openai-gpt-4"
  /\ local_id "or-custom/model" = "or-custom-model"
  /\ (forall s, local_id s =
                 if startswith (replace_char "/" "-" s) "or-"
                 then replace_char "/" "-" s
                 else ("or-" ++ replace_char "/" "-" s)%string)
  /\ (forall m, Config.id (config_model_of m) = local_id (id m)).
Proof.
  repeat split.
  intros s. unfold local_id. now destruct (startswith _ _).
Qed.

(** C7: for every model list, the export holds exactly one entry per
    record, in the order of the input (the i-th entry is the one built
    from the i-th record, so its upstream identifier is that record's),
    and every entry is disabled and carries the "Streaming" tag. *)
Theorem export_one_entry_per_record (models : list ModelRecord) (output_file : string) :
  content (export_to_config_format models output_file) = map config_model_of models
  /\ List.length (content (export_to_config_format models output_file))
     = List.length models
  /\ map Config.modelId (content (export_to_config_format models output_file))
     = map id models
  /\ Forall (fun e => Config.enabled e = false
                      /\ In "Streaming" (Config.capabilities e))
            (content (export_to_config_format models output_file)).
Proof.
  unfold export_to_config_format. simpl. rewrite export_loop_map.
  split; [reflexivity|]. split; [apply length_map|].
  split; [now rewrite map_map|].
  apply Forall_forall. intros e He. apply in_map_iff in He.
  destruct He as [m [<- _]]. split; [reflexivity | apply streaming_last].
Qed.


End ExportFacts.

(* ================================================================== *)
(** * The model filter *)
(* ================================================================== *)

Module FilterFacts.

Import Catalog Discovery.

Lemma step_min_context_absent (o : option Z) (l : list ModelRecord) :
  absent_Z o = true -> step_min_context o l = l.
Proof. destruct o as [n|]; simpl; [intros ->|]; reflexivity. Qed.

Lemma step_providers_absent (o : option (list string)) (l : list ModelRecord) :
  absent_list o = true -> step_providers o l = l.
Proof. destruct o as [[|p ps]|]; simpl; [reflexivity | discriminate | reflexivity]. Qed.

Lemma step_recent_absent (today : Z) (o : option Z) (l : list ModelRecord) :
  absent_Z o = true -> step_recent today o l = Ok l.
Proof. destruct o as [n|]; simpl; [intros ->|]; reflexivity. Qed.

Lemma step_search_absent (o : option string) (l : list ModelRecord) :
  absent_str o = true -> step_search o l = l.
Proof. destruct o as [s|]; simpl; [intros ->|]; reflexivity. Qed.

(** C5: with every criterion absent the filter returns the list it was
    given, whatever the list (and whatever the reasoning flag, which the
    source never reads). *)
Theorem filter_models_identity (today : Z) (models : list ModelRecord)
  (c : FilterCriteria) :
  every_field_absent c = true ->
  filter_models today models c = Ok models.
Proof.
  unfold every_field_absent. rewrite !andb_true_iff, !negb_true_iff.
  intros [[[[[[T V] P] M] Pr] R] S].
  unfold filter_models, before_recent.
  rewrite T, V. simpl.
  destruct (max_input_price c); [discriminate|]. simpl.
  rewrite step_min_context_absent, step_providers_absent by assumption.
  rewrite step_recent_absent by assumption. simpl.
  now rewrite step_search_absent.
Qed.

Lemma filter_models_identity_witness :
  filter_models Samples.today Samples.fifty_one no_criteria = Ok Samples.fifty_one.
Proof. apply filter_models_identity. reflexivity. Defined.

(** C10: a provider list that is present but empty imposes no
    constraint: the provider step returns its input, and the filter
    gives what it gives with no provider list at all; the condition of
    the step, taken over no alternatives, would have kept nothing. *)
Theorem empty_providers_no_constraint (today : Z) (models : list ModelRecord)
  (t v r : bool) (p : option float) (mc : option Z) (rd : option Z)
  (s : option string) :
  step_providers (Some []) models = models
  /\ filter_models today models
       {| has_tools := t; has_vision := v; has_reasoning := r;
          max_input_price := p; min_context_window := mc;
          providers := Some []; recent_days := rd; search_term := s |}
     = filter_models today models
       {| has_tools := t; has_vision := v; has_reasoning := r;
          max_input_price := p; min_context_window := mc;
          providers := None; recent_days := rd; search_term := s |}
  /\ filter (from_provider (map lower [])) models = [].
Proof.
  split; [reflexivity|]. split; [reflexivity|].
  induction models as [|m models IH]; [reflexivity | exact IH].
Qed.

End FilterFacts.

(* ================================================================== *)
(** * The validator *)
(* ================================================================== *)

Module ValidatorFacts.

Import Validation Validator.

Lemma test_model_exists_probes (remote : Remote) (model_id : string) (st : State) :
  probes (snd (test_model_exists remote model_id st)) = probes st.
Proof. unfold test_model_exists. now destruct (dict_get _ _). Qed.

Lemma test_model_exists_flag (remote : Remote) (model_id : string) (st : State) :
  fst (fst (test_model_exists remote model_id st)) = true <->
  exists m, snd (fst (test_model_exists remote model_id st)) = Found m.
Proof.
  unfold test_model_exists. destruct (dict_get _ _); simpl.
  - split; [intros _; now eexists | reflexivity].
  - split; [discriminate | intros [m H]; discriminate].
Qed.

(** One entry: what the flags and the error of its result say, and which
    probe was sent for it. *)
Lemma validate_config_model_shape (remote : Remote) (model_config : Config.Entry)
  (st : State) :
  (callable (fst (validate_config_model remote model_config st)) = true ->
   exists_ (fst (validate_config_model remote model_config st)) = true)
  /\ (forall msg,
        error (fst (validate_config_model remote model_config st)) = Some msg ->
        exists_ (fst (validate_config_model remote model_config st)) = true
        /\ callable (fst (validate_config_model remote model_config st)) = false
        /\ exists e,
             chat_completion remote (List.length (probes st))
                             (Config.modelId model_config) = Raise e
             /\ exn_str e = msg)
  /\ probes (snd (validate_config_model remote model_config st))
     = probes st
       ++ (if exists_ (fst (validate_config_model remote model_config st))
           then [Config.modelId model_config] else []).
Proof.
  unfold validate_config_model.
  assert (P := test_model_exists_probes remote (Config.modelId model_config) st).
  destruct (test_model_exists remote (Config.modelId model_config) st)
    as [[found info] st1].
  simpl in P. destruct found; simpl.
  - unfold test_model_call. rewrite P.
    destruct (chat_completion remote (List.length (probes st))
                              (Config.modelId model_config)) as [content|e] eqn:E;
      simpl.
    + repeat split; try reflexivity; discriminate.
    + split; [discriminate|]. split; [|reflexivity].
      intros msg H. inversion H; subst. repeat split. now exists e.
  - destruct info as [m|[|s similar]]; simpl;
      (split; [discriminate|]; split; [discriminate|]; now rewrite app_nil_r).
Qed.

Lemma validate_config_model_consistent (remote : Remote)
  (model_config : Config.Entry) (st : State) :
  consistent (fst (validate_config_model remote model_config st)).
Proof.
  destruct (validate_config_model_shape remote model_config st) as [C [E _]].
  split; [exact C|].
  intros H. destruct (error _) as [msg|] eqn:Er; [|contradiction].
  destruct (E msg eq_refl) as [X [Y _]]. now split.
Qed.

Lemma validate_all_results (remote : Remote) (entries : list Config.Entry)
  (acc : list ValidationResult) (st : State) :
  exists new,
    fst (validate_all remote entries acc st) = acc ++ new
    /\ List.length new = List.length entries
    /\ Forall consistent new.
Proof.
  revert acc st; induction entries as [|e entries IH]; intros acc st; simpl.
  - exists []. now rewrite app_nil_r.
  - assert (C := validate_config_model_consistent remote e st).
    destruct (validate_config_model remote e st) as [r st1]. simpl in C.
    destruct (IH (acc ++ [r]) st1) as [new [E [L F]]].
    exists (r :: new). rewrite E, <- app_assoc. simpl.
    split; [reflexivity|]. split; [now rewrite L | now constructor].
Qed.

Lemma filter_nil_iff {A : Type} (p : A -> bool) (l : list A) :
  filter p l = [] <-> Forall (fun x => p x = false) l.
Proof.
  induction l as [|x l IH]; simpl.
  - split; [constructor | reflexivity].
  - destruct (p x) eqn:E.
    + split; [discriminate | intros H; inversion H; congruence].
    + rewrite IH. split; [now constructor | intros H; now inversion H].
Qed.

Lemma has_issue_works (r : ValidationResult) : has_issue r = negb (works r).
Proof. unfold has_issue, works. now destruct (exists_ r), (callable r). Qed.

Lemma truediv_ok (a b : Z) : b <> 0 -> exists q, truediv a b = Ok q.
Proof.
  intros nz. unfold truediv.
  destruct (b =? 0) eqn:E; [apply Z.eqb_eq in E; contradiction|].
  destruct (a =? 0); eexists; reflexivity.
Qed.

Lemma print_summary_ok (rs : list ValidationResult) :
  rs <> [] -> exists s, print_summary rs = Ok s.
Proof.
  intros ne. unfold print_summary.
  assert (nz : Z.of_nat (List.length rs) <> 0) by (destruct rs; [contradiction | simpl; lia]).
  destruct (truediv_ok (count exists_ rs) _ nz) as [q1 ->].
  destruct (truediv_ok (count callable rs) _ nz) as [q2 ->].
  simpl. eexists; reflexivity.
Qed.

Lemma print_summary_empty :
  print_summary [] = Raise (Exn ZeroDivisionError "division by zero").
Proof. reflexivity. Qed.

(** A run over a registry with entries: it ends by [sys.exit], with 0
    exactly when every result works, and the report holds the results
    with an issue. *)
Lemma main_with_entries (c : ascii) (key : string) (config : Registry)
  (remote : Remote) :
  get_or (models config) [] <> [] ->
  (termination (main (Some (String c key)) (Loaded config) remote) = Exit 0
   <-> Forall (fun r => works r = true)
              (results (main (Some (String c key)) (Loaded config) remote)))
  /\ (termination (main (Some (String c key)) (Loaded config) remote) = Exit 0
      -> report_file (main (Some (String c key)) (Loaded config) remote) = None)
  /\ (termination (main (Some (String c key)) (Loaded config) remote) <> Exit 0
      -> termination (main (Some (String c key)) (Loaded config) remote) = Exit 1
         /\ exists rate,
              report_file (main (Some (String c key)) (Loaded config) remote)
              = Some {| total_tested :=
                          Z.of_nat (List.length
                            (results (main (Some (String c key)) (Loaded config) remote)));
                        failed_models :=
                          filter has_issue
                            (results (main (Some (String c key)) (Loaded config) remote));
                        success_rate := rate |}).
Proof.
  intros ne. unfold main.
  destruct (validate_all_results remote (get_or (models config) []) [] init)
    as [new [E [L _]]].
  destruct (validate_all remote (get_or (models config) []) [] init) as [rs st].
  simpl in E. subst rs.
  assert (nn : new <> []).
  { intros ->. destruct (get_or (models config) []); [contradiction | discriminate]. }
  destruct (print_summary_ok new nn) as [s ->].
  destruct (filter has_issue new) as [|f failed] eqn:F.
  - simpl. split; [|split].
    + split; [intros _ | reflexivity].
      apply filter_nil_iff in F. eapply Forall_impl; [|exact F].
      intros r H. cbv beta in H. rewrite has_issue_works in H.
      now destruct (works r).
    + reflexivity.
    + congruence.
  - assert (nz : Z.of_nat (List.length new) <> 0)
      by (destruct new; [contradiction | simpl; lia]).
    destruct (truediv_ok (Z.of_nat (List.length new)
                          - Z.of_nat (List.length (f :: failed))) _ nz) as [q ->].
    simpl. split; [|split].
    + split; [discriminate|]. intros W. exfalso.
      assert (In f (filter has_issue new)) by (rewrite F; now left).
      apply filter_In in H. destruct H as [Hin Hi].
      rewrite Forall_forall in W. specialize (W f Hin).
      rewrite has_issue_works, W in Hi. discriminate.
    + discriminate.
    + intros _. split; [reflexivity|]. exists (q * 100)%float. now rewrite F.
Qed.

Lemma main_results_consistent (api_key : option string) (file : ConfigFile)
  (remote : Remote) :
  Forall consistent (results (main api_key file remote)).
Proof.
  unfold main.
  destruct api_key as [[|c key]|]; try constructor.
  destruct file as [| |config]; try constructor.
  destruct (validate_all_results remote (get_or (models config) []) [] init)
    as [new [E [_ F]]].
  destruct (validate_all remote (get_or (models config) []) [] init) as [rs st].
  simpl in E. subst rs.
  destruct (print_summary new); [|exact F].
  destruct (filter has_issue new); [exact F|].
  destruct (truediv _ _); exact F.
Qed.

(** ** The claims on the validator *)

(** C9: in every result the validator produces, the callable flag is
    set only if the exists flag is, and an error detail is present only
    when the entry exists and its probe failed (the detail is then the
    text of the exception the probe raised); a probe is sent for the
    entry exactly when it exists.  This holds for one entry from any
    state of the validator, and for all the results of a run. *)
Theorem validation_result_flags (remote : Remote) (model_config : Config.Entry)
  (st : State) (api_key : option string) (file : ConfigFile) :
  (callable (fst (validate_config_model remote model_config st)) = true ->
   exists_ (fst (validate_config_model remote model_config st)) = true)
  /\ (forall msg,
        error (fst (validate_config_model remote model_config st)) = Some msg ->
        exists_ (fst (validate_config_model remote model_config st)) = true
        /\ callable (fst (validate_config_model remote model_config st)) = false
        /\ exists e,
             chat_completion remote (List.length (probes st))
                             (Config.modelId model_config) = Raise e
             /\ exn_str e = msg)
  /\ probes (snd (validate_config_model remote model_config st))
     = probes st
       ++ (if exists_ (fst (validate_config_model remote model_config st))
           then [Config.modelId model_config] else [])
  /\ Forall (fun r =>
               (callable r = true -> exists_ r = true)
               /\ (error r <> None -> exists_ r = true /\ callable r = false))
            (results (main api_key file remote)).
Proof.
  destruct (validate_config_model_shape remote model_config st) as [A [B C]].
  repeat split; try assumption.
  - now apply (B msg).
  - now apply (B msg).
  - now apply (B msg).
  - apply main_results_consistent.
Qed.

(** C1 (what the source does): on a registry whose models list is empty
    or missing, with a key and a readable config, the run does not reach
    [sys.exit(0)]: the percentages of the summary divide by the number of
    results, the division raises, nothing catches it, and the process
    leaves with status 1.  No report is written and no probe is sent. *)
Theorem main_empty_registry_raises (c : ascii) (key : string)
  (v d : option string) (remote : Remote) :
  main (Some (String c key))
       (Loaded {| version := v; defaultModel := d; models := Some [] |}) remote
  = {| termination := Uncaught (Exn ZeroDivisionError "division by zero");
       results := []; report_file := None; probes_sent := [] |}
  /\ main (Some (String c key))
          (Loaded {| version := v; defaultModel := d; models := None |}) remote
     = {| termination := Uncaught (Exn ZeroDivisionError "division by zero");
          results := []; report_file := None; probes_sent := [] |}
  /\ exit_status
       (termination
          (main (Some (String c key))
                (Loaded {| version := v; defaultModel := d; models := Some [] |})
                remote)) = 1.
Proof. repeat split. Qed.

(** C4 (what the source does): over a registry with at least one entry
    the run exits with 0 exactly when every result has both flags set,
    and otherwise exits with 1 after writing a report whose failed
    entries are exactly the results with an issue; over an empty registry
    every entry is (vacuously) callable and yet the exit status is 1. *)
Theorem main_exit_status (c : ascii) (key : string) (config : Registry)
  (remote : Remote) :
  (get_or (models config) [] = [] ->
   Forall (fun r => works r = true)
          (results (main (Some (String c key)) (Loaded config) remote))
   /\ exit_status (termination (main (Some (String c key)) (Loaded config) remote)) = 1)
  /\ (get_or (models config) [] <> [] ->
      (termination (main (Some (String c key)) (Loaded config) remote) = Exit 0
       <-> Forall (fun r => works r = true)
                  (results (main (Some (String c key)) (Loaded config) remote)))
      /\ (termination (main (Some (String c key)) (Loaded config) remote) = Exit 0
          -> report_file (main (Some (String c key)) (Loaded config) remote) = None)
      /\ (termination (main (Some (String c key)) (Loaded config) remote) <> Exit 0
          -> termination (main (Some (String c key)) (Loaded config) remote) = Exit 1
             /\ exists rate,
                  report_file (main (Some (String c key)) (Loaded config) remote)
                  = Some {| total_tested :=
                              Z.of_nat (List.length
                                (results (main (Some (String c key)) (Loaded config) remote)));
                            failed_models :=
                              filter has_issue
                                (results (main (Some (String c key)) (Loaded config) remote));
                            success_rate := rate |})).
Proof.
  split.
  - intros E. unfold main. rewrite E. simpl. split; [constructor | reflexivity].
  - apply main_with_entries.
Qed.

End ValidatorFacts.

(* ================================================================== *)
(** * The descending stable sort *)
(* ================================================================== *)

Section SortFacts.

Context {A : Type}.
Variable key : A -> Z.

Lemma insert_desc_perm (x : A) (l : list A) :
  Permutation (insert_desc key x l) (x :: l).
Proof.
  induction l as [|y l IH]; simpl; [reflexivity|].
  destruct (key y <=? key x); [reflexivity|].
  rewrite IH. apply perm_swap.
Qed.

Lemma sorted_reverse_perm (l : list A) : Permutation (sorted_reverse key l) l.
Proof.
  induction l as [|x l IH]; simpl; [reflexivity|].
  rewrite insert_desc_perm. now constructor.
Qed.

Lemma insert_desc_sorted (x : A) (l : list A) :
  StronglySorted (desc key) l -> StronglySorted (desc key) (insert_desc key x l).
Proof.
  induction l as [|y l IH]; intros S; simpl.
  - repeat constructor.
  - inversion S as [|? ? Sl Fy]; subst.
    destruct (key y <=? key x) eqn:E.
    + apply Z.leb_le in E. constructor; [exact S|].
      constructor; [exact E|].
      eapply Forall_impl; [|exact Fy]. unfold desc. intros; lia.
    + apply Z.leb_gt in E. constructor; [now apply IH|].
      eapply Permutation_Forall; [symmetry; apply insert_desc_perm|].
      constructor; [unfold desc; lia | exact Fy].
Qed.

Lemma sorted_reverse_sorted (l : list A) : StronglySorted (desc key) (sorted_reverse key l).
Proof.
  induction l as [|x l IH]; simpl; [constructor | now apply insert_desc_sorted].
Qed.

(** Stability: the records of one key keep the order they came in. *)
Lemma insert_desc_stable (k : Z) (x : A) (l : list A) :
  filter (fun a => key a =? k) (insert_desc key x l)
  = filter (fun a => key a =? k) (x :: l).
Proof.
  induction l as [|y l IH]; [reflexivity|].
  simpl insert_desc. destruct (key y <=? key x) eqn:E; [reflexivity|].
  apply Z.leb_gt in E. simpl in *. rewrite IH.
  destruct (key x =? k) eqn:X, (key y =? k) eqn:Y; try reflexivity.
  apply Z.eqb_eq in X, Y. lia.
Qed.

Lemma sorted_reverse_stable (k : Z) (l : list A) :
  filter (fun a => key a =? k) (sorted_reverse key l)
  = filter (fun a => key a =? k) l.
Proof.
  induction l as [|x l IH]; [reflexivity|].
  simpl sorted_reverse. rewrite insert_desc_stable. simpl. now rewrite IH.
Qed.

Lemma firstn_sorted (n : nat) (l : list A) :
  StronglySorted (desc key) l -> StronglySorted (desc key) (firstn n l).
Proof.
  revert n; induction l as [|x l IH]; intros n S.
  - now rewrite firstn_nil.
  - destruct n as [|n]; simpl; [constructor|].
    inversion S as [|? ? Sl Fx]; subst.
    constructor; [now apply IH|].
    rewrite Forall_forall in *. intros y Hy. apply Fx.
    rewrite <- (firstn_skipn n l). apply in_or_app. now left.
Qed.

Lemma filter_sorted (p : A -> bool) (l : list A) :
  StronglySorted (desc key) l -> StronglySorted (desc key) (filter p l).
Proof.
  induction 1 as [|x l S IH Fx]; simpl; [constructor|].
  destruct (p x); [|exact IH].
  constructor; [exact IH|].
  rewrite Forall_forall in *. intros y Hy. apply Fx.
  now apply filter_In in Hy.
Qed.

Lemma sorted_nth (l : list A) (i j : nat) (a b : A) :
  StronglySorted (desc key) l -> (i < j)%nat ->
  nth_error l i = Some a -> nth_error l j = Some b -> desc key a b.
Proof.
  intros S; revert i j; induction S as [|x l S IH Fx]; intros i j Lt Hi Hj.
  - destruct i; discriminate.
  - destruct j as [|j]; [lia|]. simpl in Hj.
    destruct i as [|i]; simpl in Hi.
    + inversion Hi; subst. rewrite Forall_forall in Fx.
      apply Fx. eapply nth_error_In; eauto.
    + apply (IH i j); [lia | assumption | assumption].
Qed.

Lemma filter_length_le (p : A -> bool) (l : list A) :
  (List.length (filter p l) <= List.length l)%nat.
Proof.
  induction l as [|x l IH]; simpl; [lia|]. destruct (p x); simpl; lia.
Qed.

End SortFacts.

(* ================================================================== *)
(** * The recency criterion *)
(* ================================================================== *)

Module RecencyFacts.

Import Catalog Discovery.

Lemma datetime_sub_days_ok (today d : Z) :
  0 < today <= MAXORDINAL -> 0 < today - d <= MAXORDINAL ->
  datetime_sub_days today d = Ok (today - d).
Proof.
  unfold datetime_sub_days, timedelta_days, MAXORDINAL. intros T R.
  replace (Z.abs d <=? 999999999) with true by (symmetry; apply Z.leb_le; lia).
  simpl.
  replace (0 <? today - d) with true by (symmetry; apply Z.ltb_lt; lia).
  replace (today - d <=? 3652059) with true by (symmetry; apply Z.leb_le; lia).
  reflexivity.
Qed.

Lemma step_recent_applied (today d : Z) (l : list ModelRecord) :
  d <> 0 -> 0 < today <= MAXORDINAL -> 0 < today - d <= MAXORDINAL ->
  step_recent today (Some d) l = Ok (firstn 50 (sorted_reverse created_key l)).
Proof.
  intros nz T R. unfold step_recent.
  destruct (d =? 0) eqn:E; [apply Z.eqb_eq in E; contradiction|].
  now rewrite datetime_sub_days_ok.
Qed.

Lemma step_search_filter (term : option string) (l : list ModelRecord) :
  exists p, step_search term l = filter p l.
Proof.
  unfold step_search. destruct term as [t|].
  - destruct (String.eqb t "").
    + exists (fun _ => true). induction l; simpl; congruence.
    + eexists; reflexivity.
  - exists (fun _ => true). induction l; simpl; congruence.
Qed.

Lemma created_key_missing (m : ModelRecord) : created m = None -> created_key m = 0.
Proof. unfold created_key. now intros ->. Qed.

(** C6 (as the spec states it, refuted): a recency window of 0 days is
    present and yet neither sorts nor truncates: fifty-one records given
    oldest first come back as they were. *)
Lemma recent_zero_days_untouched :
  recent_days (only_recent 0) = Some 0
  /\ filter_models Samples.today Samples.fifty_one (only_recent 0)
     = Ok Samples.fifty_one
  /\ List.length Samples.fifty_one = 51%nat
  /\ map created_key (firstn 2 Samples.fifty_one) = [1; 2].
Proof. repeat split. Qed.

(** A window that reaches back before year 1 makes the cutoff date
    overflow, and the filter raises before it sorts. *)
Lemma recent_far_days_raises :
  filter_models Samples.today Samples.fifty_one (only_recent 1000000)
  = Raise (Exn OverflowError "date value out of range").
Proof. reflexivity. Qed.

(** C6 (amended): when the recency window is present, not zero, and the
    cutoff date it gives is a date the calendar has, the filter takes
    the records that survived the earlier predicates, sorts them by
    creation time, latest first (a stable sort: a permutation of the
    survivors, ordered by descending key, records of equal key in their
    earlier order), a record without creation time counting as created
    at 0 and so coming after every record with a positive one, keeps the
    first 50, and then applies the search term; the result has at most
    50 records and is in descending order of creation time. *)
Theorem recency_sorts_and_truncates (today d : Z) (models survivors : list ModelRecord)
  (c : FilterCriteria) :
  recent_days c = Some d ->
  d <> 0 ->
  0 < today <= MAXORDINAL ->
  0 < today - d <= MAXORDINAL ->
  before_recent models c = Ok survivors ->
  exists result,
    filter_models today models c = Ok result
    /\ result = step_search (search_term c)
                            (firstn 50 (sorted_reverse created_key survivors))
    /\ Permutation (sorted_reverse created_key survivors) survivors
    /\ StronglySorted (fun a b => created_key b <= created_key a)
                      (sorted_reverse created_key survivors)
    /\ (forall k, filter (fun m => created_key m =? k)
                         (sorted_reverse created_key survivors)
                  = filter (fun m => created_key m =? k) survivors)
    /\ (search_term c = None ->
        result = firstn 50 (sorted_reverse created_key survivors))
    /\ (List.length result <= 50)%nat
    /\ StronglySorted (fun a b => created_key b <= created_key a) result
    /\ (forall i j a b, (i < j)%nat ->
          nth_error result i = Some a -> nth_error result j = Some b ->
          created a = None -> created_key b <= 0).
Proof.
  intros R nz T Rg B.
  exists (step_search (search_term c)
                      (firstn 50 (sorted_reverse created_key survivors))).
  assert (S : StronglySorted (desc created_key)
                (step_search (search_term c)
                   (firstn 50 (sorted_reverse created_key survivors)))).
  { destruct (step_search_filter (search_term c)
                (firstn 50 (sorted_reverse created_key survivors))) as [p ->].
    apply filter_sorted, firstn_sorted, sorted_reverse_sorted. }
  split.
  { unfold filter_models. rewrite B, R. cbn [bind].
    now rewrite step_recent_applied. }
  split; [reflexivity|].
  split; [apply sorted_reverse_perm|].
  split; [apply sorted_reverse_sorted|].
  split; [intros k; apply sorted_reverse_stable|].
  split; [now intros ->|].
  split.
  { destruct (step_search_filter (search_term c)
                (firstn 50 (sorted_reverse created_key survivors))) as [p ->].
    etransitivity; [apply filter_length_le|]. apply firstn_le_length. }
  split; [exact S|].
  intros i j a b Lt Hi Hj Ha.
  rewrite <- (created_key_missing a Ha).
  exact (sorted_nth created_key _ i j a b S Lt Hi Hj).
Qed.

Lemma recency_sorts_and_truncates_witness :
  exists result,
    filter_models Samples.today Samples.fifty_one (only_recent 30) = Ok result
    /\ List.length result = 50%nat
    /\ map created_key (firstn 3 result) = [51; 50; 49].
Proof.
  destruct (recency_sorts_and_truncates Samples.today 30 Samples.fifty_one
              Samples.fifty_one (only_recent 30))
    as [result [E [-> _]]];
    [reflexivity | discriminate | unfold Samples.today, MAXORDINAL; lia
     | unfold Samples.today, MAXORDINAL; lia | reflexivity |].
  eexists. split; [exact E|]. split; reflexivity.
Defined.

End RecencyFacts.

(* ================================================================== *)
(** * A positive price stays positive per million tokens *)
(* ================================================================== *)

Module FloatFacts.

Local Open Scope Z_scope.

Lemma shr_1_lower (k : Z) (r : shr_record) :
  k * 2 <= shr_m r -> k <= shr_m (shr_1 r).
Proof.
  destruct r as [m rb sb]. simpl.
  destruct m as [|[p|p|]|[p|p|]]; simpl; lia.
Qed.

Lemma iter_shr_1_lower (n : positive) :
  forall (k : Z) (r : shr_record),
    0 <= k -> k * 2 ^ Zpos n <= shr_m r -> k <= shr_m (iter_pos shr_1 n r).
Proof.
  induction n as [n IH|n IH|]; intros k r K H; simpl.
  - apply IH; [exact K|]. apply IH; [nia|].
    apply shr_1_lower.
    replace (Zpos n~1) with (Zpos n + Zpos n + 1) in H by lia.
    rewrite !Z.pow_add_r in H by lia. lia.
  - apply IH; [exact K|]. apply IH; [nia|].
    replace (Zpos n~0) with (Zpos n + Zpos n) in H by lia.
    rewrite !Z.pow_add_r in H by lia. lia.
  - apply shr_1_lower. exact H.
Qed.

Lemma shr_record_of_loc_m (m : Z) (l : location) : shr_m (shr_record_of_loc m l) = m.
Proof. destruct l as [|[]]; reflexivity. Qed.

Lemma digits2_lower (p : positive) : 2 ^ (Zpos (digits2_pos p) - 1) <= Zpos p.
Proof.
  induction p as [p IH|p IH|]; simpl digits2_pos.
  - rewrite Pos2Z.inj_succ.
    replace (Z.succ (Zpos (digits2_pos p)) - 1) with (Z.succ (Zpos (digits2_pos p) - 1)) by lia.
    rewrite Z.pow_succ_r by lia. lia.
  - rewrite Pos2Z.inj_succ.
    replace (Z.succ (Zpos (digits2_pos p)) - 1) with (Z.succ (Zpos (digits2_pos p) - 1)) by lia.
    rewrite Z.pow_succ_r by lia. lia.
  - simpl. lia.
Qed.

Lemma shr_fexp_lower (m e : Z) (l : location) :
  0 < m -> roomy m e ->
  1 <= shr_m (fst (shr_fexp prec emax m e l))
  /\ ((snd (shr_fexp prec emax m e l) = e
       /\ shr_m (fst (shr_fexp prec emax m e l)) = m)
      \/ emin <= snd (shr_fexp prec emax m e l)).
Proof.
  intros M R. unfold shr_fexp, shr.
  destruct m as [|p|p]; try lia.
  unfold Zdigits2.
  destruct (fexp prec emax (Zpos (digits2_pos p) + e) - e) as [|s|s] eqn:S; simpl.
  - rewrite shr_record_of_loc_m. split; [lia | now left].
  - split.
    + apply iter_shr_1_lower; [lia|]. rewrite shr_record_of_loc_m.
      assert (D := digits2_lower p).
      unfold fexp in S.
      destruct (Z.max_spec (Zpos (digits2_pos p) + e - prec) (emin))
        as [[_ X]|[_ X]]; rewrite X in S.
      * destruct R as [R|R]; [lia|]. rewrite <- S. lia.
      * assert (2 ^ Zpos s <= 2 ^ (Zpos (digits2_pos p) - 1)).
        { apply Z.pow_le_mono_r; [lia|]. unfold prec in S. lia. }
        lia.
    + right. unfold fexp in S. lia.
  - rewrite shr_record_of_loc_m. split; [lia | now left].
Qed.

Lemma round_nearest_even_lower (m : Z) (l : location) : m <= round_nearest_even m l.
Proof.
  unfold round_nearest_even.
  destruct l as [|[]]; try lia. destruct (Z.even m); lia.
Qed.

Lemma binary_round_aux_positive (sx : bool) (mx ex : Z) (lx : location) :
  0 < mx -> roomy mx ex ->
  (exists m e, binary_round_aux prec emax sx mx ex lx = S754_finite sx m e)
  \/ binary_round_aux prec emax sx mx ex lx = S754_infinity sx.
Proof.
  intros M R. unfold binary_round_aux.
  destruct (shr_fexp_lower mx ex lx M R) as [L1 W1].
  destruct (shr_fexp prec emax mx ex lx) as [mrs' e'] eqn:E1. simpl in L1, W1.
  assert (L2 := round_nearest_even_lower (shr_m mrs') (loc_of_shr_record mrs')).
  assert (R2 : roomy (round_nearest_even (shr_m mrs') (loc_of_shr_record mrs')) e').
  { destruct W1 as [[-> Em]|W1]; [|left; lia].
    destruct R as [R|R]; [now left | right].
    apply Z.le_trans with (1 := R). rewrite <- Em at 1. exact L2. }
  assert (P2 : 0 < round_nearest_even (shr_m mrs') (loc_of_shr_record mrs')) by lia.
  destruct (shr_fexp_lower _ e' loc_Exact P2 R2) as [L3 _].
  destruct (shr_fexp prec emax _ e' loc_Exact) as [mrs'' e''] eqn:E2. simpl in L3.
  destruct (shr_m mrs'') as [|m|m]; try lia.
  destruct (e'' <=? emax - prec); [left; eauto | now right].
Qed.

Lemma valid_exponent (s : bool) (m : positive) (e : Z) :
  valid_binary (S754_finite s m e) = true -> emin <= e.
Proof.
  simpl. unfold bounded, canonical_mantissa, fexp.
  intros H. apply andb_true_iff in H. destruct H as [H _].
  apply Z.eqb_eq in H. lia.
Qed.

(** A float above zero, times a million, is not at or below zero. *)
Lemma positive_times_million (p : float) :
  (0 <? p)%float = true -> (p * 1000000 <=? 0)%float = false.
Proof.
  rewrite FloatAxioms.ltb_spec, FloatAxioms.leb_spec, FloatAxioms.mul_spec.
  assert (V := FloatAxioms.Prim2SF_valid p).
  change (Prim2SF 0) with (S754_zero false).
  change (Prim2SF 1000000) with (S754_finite false 8589934592000000 (-33)).
  destruct (Prim2SF p) as [s|s| |s m e]; try discriminate.
  - destruct s; [discriminate | reflexivity].
  - destruct s; [discriminate|]. intros _.
    apply valid_exponent in V.
    assert (Rm : roomy (Zpos (m * 8589934592000000)) (e + -33)).
    { right. unfold SpecFloat.emin, prec, emax in *.
      apply Z.le_trans with (2 ^ 33).
      - apply Z.pow_le_mono_r; lia.
      - change (2 ^ 33) with 8589934592. lia. }
    unfold SF64mul, SFmul. simpl xorb.
    destruct (binary_round_aux_positive false
                (Zpos (m * 8589934592000000)) (e + -33) loc_Exact
                ltac:(lia) Rm)
      as [[m' [e' ->]]| ->]; reflexivity.
Qed.

End FloatFacts.

(* ================================================================== *)
(** * The price criterion *)
(* ================================================================== *)

Module PriceFacts.

Import Catalog Discovery.

Lemma float_of_str_error (s : string) (e : exn) :
  float_of_str s = Raise e -> e = float_literal_error s.
Proof.
  unfold float_of_str.
  destruct (read_sign (strip s)) as [neg body].
  destruct (_ || _)%bool; [discriminate|].
  destruct (String.eqb _ _); [discriminate|].
  destruct (read_digits body 0 0) as [[ip ni] s1].
  destruct (match s1 with String "." s1' => read_digits s1' ip 0 | _ => (ip, 0, s1) end)
    as [[m nf] s2].
  destruct (ni + nf =? 0); [now inversion 1|].
  destruct (read_exponent s2) as [[ex [|c r]]|]; now inversion 1.
Qed.


Lemma within_price_error (thr : float) (m : ModelRecord) (e : exn) :
  within_price thr m = Raise e -> prompt_price m = Raise e.
Proof.
  unfold within_price. destruct (prompt_price m); simpl; [discriminate|].
  now inversion 1.
Qed.

Section FilterExc.

Context {A : Type}.
Variable p : A -> result bool.

Lemma filter_exc_ok (l : list A) :
  (forall x, In x l -> exists b, p x = Ok b) ->
  filter_exc p l = Ok (filter (answer p) l).
Proof.
  induction l as [|x l IH]; intros H; simpl; [reflexivity|].
  destruct (H x (or_introl eq_refl)) as [b E].
  unfold answer at 1. rewrite E. simpl.
  rewrite IH by (intros y Hy; apply H; now right). reflexivity.
Qed.

Lemma filter_exc_raise (l : list A) (x : A) (e : exn) :
  In x l -> p x = Raise e ->
  exists y e', In y l /\ p y = Raise e' /\ filter_exc p l = Raise e'.
Proof.
  induction l as [|z l IH]; intros Hin E; [contradiction|]. simpl.
  destruct (p z) as [b|e0] eqn:Pz.
  - destruct Hin as [->|Hin]; [congruence|].
    destruct (IH Hin E) as [y [e' [Hy [Py F]]]].
    exists y, e'. simpl. rewrite F. auto.
  - exists z, e0. simpl. auto.
Qed.

End FilterExc.

Lemma bind_ok {A : Type} (c : result A) : bind c (fun a => Ok a) = c.
Proof. now destruct c. Qed.

Lemma missing_price (m : ModelRecord) :
  prompt (get_or (pricing m) no_pricing) = None -> prompt_price m = Ok 999%float.
Proof. unfold prompt_price. now intros ->. Qed.

(** ** The claim on the price criterion *)

(** C3 (as the spec states it, refuted): the spec has a record with an
    unparseable prompt price treated as priced 999 per token, so that a
    threshold of 1,000,000,000 would keep it; the source converts the
    text with [float], which raises, and the whole filter raises. *)
Lemma unparseable_price_raises :
  filter_models Samples.today
                [Samples.record "vendor/model" (Some "free") None]
                (only_max_price 1000000000)
  = Raise (Exn ValueError "could not convert string to float: 'free'").
Proof. reflexivity. Qed.

(** C3 (amended): for every model list and every threshold, when every
    record's prompt price is missing or a text [float] accepts, the
    filter keeps, in order, exactly the records whose price times
    1,000,000 is at most the threshold; a missing price counts as 999 per
    token, so such a record is kept exactly when 999,000,000 is at most
    the threshold; a record whose price text [float] rejects makes the
    filter raise [ValueError]; with threshold 0 every record with a
    positive or missing price is excluded. *)
Theorem max_price_keeps_affordable (today : Z) (thr : float)
  (models : list ModelRecord) :
  filter_models today models (only_max_price thr) = step_max_price (Some thr) models
  /\ ((forall m, In m models -> exists p, prompt_price m = Ok p) ->
      step_max_price (Some thr) models
      = Ok (filter (fun m => match prompt_price m with
                             | Ok p => (p * 1000000 <=? thr)%float
                             | Raise _ => false
                             end) models))
  /\ (forall m, prompt (get_or (pricing m) no_pricing) = None ->
                prompt_price m = Ok 999%float
                /\ within_price thr m = Ok (999000000 <=? thr)%float)
  /\ (forall m e, In m models -> prompt_price m = Raise e ->
                  raises (step_max_price (Some thr) models) ValueError)
  /\ (forall m p, prompt_price m = Ok p -> (0 <? p)%float = true ->
                  within_price 0 m = Ok false)
  /\ (forall m, prompt (get_or (pricing m) no_pricing) = None ->
                within_price 0 m = Ok false).
Proof.
  split.
  { unfold filter_models, before_recent, only_max_price. simpl.
    now destruct (filter_exc (within_price thr) models). }
  split.
  { intros H. simpl. rewrite filter_exc_ok.
    - f_equal. apply filter_ext. intros m. unfold answer, within_price.
      now destruct (prompt_price m).
    - intros m Hm. destruct (H m Hm) as [p E].
      unfold within_price. rewrite E. simpl. eauto. }
  split.
  { intros m H. split; [now apply missing_price|].
    unfold within_price. now rewrite (missing_price m H). }
  split.
  { intros m e Hin E. simpl.
    destruct (filter_exc_raise (within_price thr) models m e Hin)
      as [y [e' [_ [Py ->]]]].
    - unfold within_price. now rewrite E.
    - apply within_price_error, float_of_str_error in Py. subst e'.
      eexists. reflexivity. }
  split.
  { intros m p E P. unfold within_price. rewrite E. simpl.
    now rewrite FloatFacts.positive_times_million. }
  intros m H. unfold within_price. now rewrite (missing_price m H).
Qed.

(** The price criterion on three records: one at a dollar per million
    tokens, one without a price, one at two dollars. *)
Example max_price_one_dollar :
  filter_models Samples.today
    [Samples.record "a/one" (Some "0.000001") None;
     {| id := "b/none"; name := None; description := None; pricing := None;
        context_length := None; supported_parameters := None;
        architecture := None; created := None |};
     Samples.record "c/two" (Some "0.000002") None]
    (only_max_price 1)
  = Ok [Samples.record "a/one" (Some "0.000001") None].
Proof. reflexivity. Qed.

End PriceFacts.

(* ================================================================== *)
(** * More on the model filter *)
(* ================================================================== *)

Module FilterMore.

Import Catalog Discovery Notions.

Lemma filter_all {A : Type} (p : A -> bool) (l : list A) :
  Forall (fun x => p x = true) l -> filter p l = l.
Proof.
  induction 1 as [|x l Hx _ IH]; simpl; [reflexivity|]. now rewrite Hx, IH.
Qed.

Lemma filter_true {A : Type} (l : list A) : filter (fun _ => true) l = l.
Proof. apply filter_all. apply Forall_forall. reflexivity. Qed.

Lemma filter_and {A : Type} (p q : A -> bool) (l : list A) :
  filter q (filter p l) = filter (fun x => (p x && q x)%bool) l.
Proof.
  induction l as [|x l IH]; simpl; [reflexivity|].
  destruct (p x); simpl; [destruct (q x)|]; now rewrite IH.
Qed.

Lemma subseq_filter {A : Type} (p : A -> bool) (l : list A) : subseq (filter p l) l.
Proof.
  induction l as [|x l IH]; simpl; [constructor|].
  destruct (p x); now constructor.
Qed.

Lemma subseq_incl {A : Type} (l1 l2 : list A) : subseq l1 l2 -> incl l1 l2.
Proof.
  induction 1 as [|x l1 l2 _ IH|x l1 l2 _ IH]; intros y Hy.
  - exact Hy.
  - right. now apply IH.
  - destruct Hy as [->|Hy]; [now left | right; now apply IH].
Qed.

(** *** Each step as a filter *)

Lemma step_tools_filter (c : FilterCriteria) (l : list ModelRecord) :
  step_tools (has_tools c) l = filter (passes_tools c) l.
Proof.
  unfold step_tools, passes_tools.
  destruct (has_tools c); [reflexivity | now rewrite filter_true].
Qed.

Lemma step_vision_filter (c : FilterCriteria) (l : list ModelRecord) :
  step_vision (has_vision c) l = filter (passes_vision c) l.
Proof.
  unfold step_vision, passes_vision.
  destruct (has_vision c); [reflexivity | now rewrite filter_true].
Qed.

Lemma step_min_context_filter (c : FilterCriteria) (l : list ModelRecord) :
  step_min_context (min_context_window c) l = filter (passes_context c) l.
Proof.
  unfold step_min_context, passes_context.
  destruct (min_context_window c) as [n|]; [|now rewrite filter_true].
  destruct (n =? 0); [now rewrite filter_true | reflexivity].
Qed.

Lemma step_providers_filter (c : FilterCriteria) (l : list ModelRecord) :
  step_providers (providers c) l = filter (passes_providers c) l.
Proof.
  unfold step_providers, passes_providers.
  destruct (providers c) as [[|p ps]|]; try reflexivity; now rewrite filter_true.
Qed.

Lemma step_search_as_filter (c : FilterCriteria) (l : list ModelRecord) :
  step_search (search_term c) l = filter (passes_search c) l.
Proof.
  unfold step_search, passes_search.
  destruct (search_term c) as [t|]; [|now rewrite filter_true].
  destruct (String.eqb t ""); [now rewrite filter_true | reflexivity].
Qed.

Lemma filter_exc_inv {A : Type} (p : A -> result bool) (l r : list A) :
  filter_exc p l = Ok r ->
  r = filter (answer p) l /\ Forall (fun x => exists b, p x = Ok b) l.
Proof.
  revert r; induction l as [|x l IH]; intros r; simpl.
  - intros H. inversion H. split; [reflexivity | constructor].
  - destruct (p x) as [b|e] eqn:Px; simpl; [|discriminate].
    destruct (filter_exc p l) as [r'|e]; simpl; [|discriminate].
    intros H. inversion H; subst. destruct (IH r' eq_refl) as [-> F].
    split; [|constructor; eauto].
    simpl. replace (answer p x) with b by (unfold answer; now rewrite Px).
    reflexivity.
Qed.

Lemma filter_exc_all_true {A : Type} (p : A -> result bool) (l : list A) :
  Forall (fun x => p x = Ok true) l -> filter_exc p l = Ok l.
Proof.
  induction 1 as [|x l Hx _ IH]; simpl; [reflexivity|]. now rewrite Hx, IH.
Qed.

Lemma step_max_price_filter (c : FilterCriteria) (l r : list ModelRecord) :
  step_max_price (max_input_price c) l = Ok r -> r = filter (passes_price c) l.
Proof.
  unfold step_max_price, passes_price.
  destruct (max_input_price c) as [p|].
  - intros H. now apply filter_exc_inv in H.
  - intros H. inversion H. now rewrite filter_true.
Qed.

(** The stages a successful run of the filter went through. *)
Lemma filter_models_stages (today : Z) (models r : list ModelRecord)
  (c : FilterCriteria) :
  filter_models today models c = Ok r ->
  exists priced recent,
    step_max_price (max_input_price c)
      (step_vision (has_vision c) (step_tools (has_tools c) models)) = Ok priced
    /\ step_recent today (recent_days c)
         (step_providers (providers c)
            (step_min_context (min_context_window c) priced)) = Ok recent
    /\ r = step_search (search_term c) recent.
Proof.
  unfold filter_models, before_recent.
  destruct (step_max_price _ _) as [priced|e]; simpl; [|discriminate].
  destruct (step_recent _ _ _) as [recent|e] eqn:R; simpl; [|discriminate].
  intros H. inversion H. exists priced, recent. auto.
Qed.

Lemma step_recent_inv (today : Z) (days : option Z) (l r : list ModelRecord) :
  step_recent today days l = Ok r ->
  (absent_Z days = true /\ r = l)
  \/ (absent_Z days = false /\ r = firstn 50 (sorted_reverse created_key l)).
Proof.
  unfold step_recent. destruct days as [d|]; simpl.
  - destruct (d =? 0); [intros H; inversion H; now left|].
    destruct (datetime_sub_days today d); simpl; [|discriminate].
    intros H. inversion H. now right.
  - intros H. inversion H. now left.
Qed.

(** Whether the recency step returns depends on the day and the window,
    not on the list. *)
Lemma step_recent_uniform (today : Z) (days : option Z) (l r l' : list ModelRecord) :
  step_recent today days l = Ok r ->
  step_recent today days l'
  = Ok (if absent_Z days then l' else firstn 50 (sorted_reverse created_key l')).
Proof.
  unfold step_recent, absent_Z. destruct days as [d|]; [|reflexivity].
  destruct (d =? 0); [reflexivity|].
  destruct (datetime_sub_days today d); [reflexivity | discriminate].
Qed.

Lemma sorted_reverse_fixed {A : Type} (key : A -> Z) (l : list A) :
  StronglySorted (desc key) l -> sorted_reverse key l = l.
Proof.
  induction 1 as [|x l S IH Fx]; simpl; [reflexivity|].
  rewrite IH. destruct l as [|y l]; [reflexivity|]. simpl.
  inversion Fx as [|? ? Hy _]; subst. unfold desc in Hy.
  apply Z.leb_le in Hy. now rewrite Hy.
Qed.

Lemma answer_true {A : Type} (p : A -> result bool) (x : A) :
  answer p x = true -> p x = Ok true.
Proof. unfold answer. destruct (p x) as [[|]|]; congruence. Qed.

Lemma filter_models_shape (today : Z) (models r : list ModelRecord)
  (c : FilterCriteria) :
  filter_models today models c = Ok r ->
  exists recent,
    step_recent today (recent_days c) (filter (passes_early c) models) = Ok recent
    /\ r = filter (passes_search c) recent.
Proof.
  intros H. apply filter_models_stages in H.
  destruct H as [priced [recent [P [R ->]]]].
  apply step_max_price_filter in P.
  rewrite step_tools_filter, step_vision_filter in P.
  rewrite step_min_context_filter, step_providers_filter in R.
  subst priced. rewrite !filter_and in R.
  exists recent. split; [|apply step_search_as_filter].
  rewrite <- R. f_equal. apply filter_ext. intros m.
  unfold passes_early. now rewrite !andb_assoc.
Qed.

Lemma passes_split (c : FilterCriteria) (m : ModelRecord) :
  passes c m = (passes_early c m && passes_search c m)%bool.
Proof. reflexivity. Qed.

Lemma recent_within (today : Z) (days : option Z) (l recent : list ModelRecord) :
  step_recent today days l = Ok recent -> incl recent l.
Proof.
  intros R. apply step_recent_inv in R. destruct R as [[_ ->]|[_ ->]].
  - apply incl_refl.
  - intros x Hx. apply (Permutation_in x (sorted_reverse_perm created_key l)).
    rewrite <- (firstn_skipn 50 (sorted_reverse created_key l)).
    apply in_or_app. now left.
Qed.

(** Every record the filter returns satisfies every condition. *)
Lemma filter_models_passes (today : Z) (models r : list ModelRecord)
  (c : FilterCriteria) :
  filter_models today models c = Ok r -> Forall (fun m => passes c m = true) r.
Proof.
  intros H. apply filter_models_shape in H. destruct H as [recent [R ->]].
  apply recent_within in R.
  apply Forall_forall. intros x Hx. apply filter_In in Hx.
  destruct Hx as [Hx S]. apply R, filter_In in Hx.
  rewrite passes_split. destruct Hx as [_ ->]. exact S.
Qed.

(** *** The properties *)



(** X2: filtering is idempotent: when the filter returns a list,
    filtering that list again with the same criteria on the same day
    returns it unchanged. *)
Theorem filter_models_idempotent (today : Z) (models r : list ModelRecord)
  (c : FilterCriteria) :
  filter_models today models c = Ok r ->
  filter_models today r c = Ok r.
Proof.
  intros H. assert (F := filter_models_passes today models r c H).
  apply filter_models_shape in H. destruct H as [recent [R E]].
  assert (Fp : forall q : FilterCriteria -> ModelRecord -> bool,
             (forall m, passes c m = true -> q c m = true) ->
             Forall (fun m => q c m = true) r).
  { intros q Hq. eapply Forall_impl; [|exact F]. intros m. apply Hq. }
  unfold passes in Fp.
  unfold filter_models, before_recent.
  rewrite step_tools_filter, filter_all
    by (apply Fp; intros m; rewrite !andb_true_iff; tauto).
  rewrite step_vision_filter, filter_all
    by (apply Fp; intros m; rewrite !andb_true_iff; tauto).
  assert (P : step_max_price (max_input_price c) r = Ok r).
  { unfold step_max_price. destruct (max_input_price c) as [p|] eqn:Mp; [|reflexivity].
    apply filter_exc_all_true.
    eapply Forall_impl; [|apply (Fp passes_price); intros m; rewrite !andb_true_iff; tauto].
    intros m. unfold passes_price. rewrite Mp. apply answer_true. }
  rewrite P. cbn [bind].
  rewrite step_min_context_filter, filter_all
    by (apply Fp; intros m; rewrite !andb_true_iff; tauto).
  rewrite step_providers_filter, filter_all
    by (apply Fp; intros m; rewrite !andb_true_iff; tauto).
  assert (Rr : step_recent today (recent_days c) r = Ok r).
  { rewrite (step_recent_uniform _ _ _ _ r R).
    destruct (step_recent_inv _ _ _ _ R) as [[A _]|[A Rc]]; rewrite A;
      [reflexivity|].
    subst recent.
    assert (S : StronglySorted (desc created_key) r).
    { rewrite E. apply filter_sorted, firstn_sorted, sorted_reverse_sorted. }
    rewrite (sorted_reverse_fixed _ _ S).
    rewrite firstn_all2; [reflexivity|].
    rewrite E. etransitivity; [apply filter_length_le | apply firstn_le_length]. }
  rewrite Rr. cbn [bind].
  rewrite step_search_as_filter, filter_all
    by (apply Fp; intros m; rewrite !andb_true_iff; tauto).
  reflexivity.
Qed.

Lemma filter_models_idempotent_witness :
  filter_models Samples.today (firstn 50 (rev Samples.fifty_one)) (only_recent 30)
  = Ok (firstn 50 (rev Samples.fifty_one)).
Proof.
  exact (filter_models_idempotent Samples.today Samples.fifty_one
           (firstn 50 (rev Samples.fifty_one)) (only_recent 30) eq_refl).
Defined.

Lemma filter_twice {A : Type} (p : A -> bool) (l : list A) :
  filter p (filter p l) = filter p l.
Proof.
  apply filter_all, Forall_forall. intros x Hx. now apply filter_In in Hx.
Qed.

(** X3: the price text of a record is read only if the record got past
    the tools and vision flags: with the tools flag set, the filter does
    on a list what it does on the list's records with tool support (so a
    price that cannot be parsed, on a record without tool support, does
    not make it raise), and likewise for the vision flag. *)
Theorem flags_shield_price (today : Z) (models : list ModelRecord)
  (c : FilterCriteria) :
  (has_tools c = true ->
   filter_models today models c
   = filter_models today (filter supports_tools models) c)
  /\ (has_vision c = true ->
      filter_models today models c
      = filter_models today (filter accepts_images models) c).
Proof.
  split; intros H; unfold filter_models, before_recent.
  - rewrite H. unfold step_tools. now rewrite filter_twice.
  - rewrite H. unfold step_vision.
    assert (X : filter accepts_images
                  (step_tools (has_tools c) (filter accepts_images models))
                = filter accepts_images (step_tools (has_tools c) models)).
    { rewrite !step_tools_filter, !filter_and. apply filter_ext. intros m.
      destruct (accepts_images m), (passes_tools c m); reflexivity. }
    now rewrite X.
Qed.

(** With the tools flag a record without tool support and with a price
    text that is no number is dropped unread; without the flag the same
    list makes the filter raise. *)
Example tools_flag_skips_unparseable_price :
  filter_models Samples.today
    [ {| id := "a/with-tools"; name := None; description := None;
         pricing := Some {| prompt := Some "0.000001"; completion := None |};
         context_length := None; supported_parameters := Some ["tools"];
         architecture := None; created := None |};
      Samples.record "b/no-tools" (Some "free") None ]
    {| has_tools := true; has_vision := false; has_reasoning := false;
       max_input_price := Some 1%float; min_context_window := None;
       providers := None; recent_days := None; search_term := None |}
  = Ok [ {| id := "a/with-tools"; name := None; description := None;
            pricing := Some {| prompt := Some "0.000001"; completion := None |};
            context_length := None; supported_parameters := Some ["tools"];
            architecture := None; created := None |} ]
  /\ filter_models Samples.today
       [ {| id := "a/with-tools"; name := None; description := None;
            pricing := Some {| prompt := Some "0.000001"; completion := None |};
            context_length := None; supported_parameters := Some ["tools"];
            architecture := None; created := None |};
         Samples.record "b/no-tools" (Some "free") None ]
       (only_max_price 1)
     = Raise (Exn ValueError "could not convert string to float: 'free'").
Proof. split; reflexivity. Qed.

(** X4: the recency step keeps the 50 latest records or all of them:
    its result has min(50, n) records, all of them records of its input,
    and when the input has at most 50 records nothing is lost (the
    result is the input, reordered). *)
Theorem step_recent_size (today d : Z) (l r : list ModelRecord) :
  d <> 0 ->
  step_recent today (Some d) l = Ok r ->
  List.length r = Nat.min 50 (List.length l)
  /\ incl r l
  /\ ((List.length l <= 50)%nat -> Permutation r l).
Proof.
  intros nz H. apply step_recent_inv in H.
  destruct H as [[A _]|[_ ->]].
  { simpl in A. apply Z.eqb_eq in A. contradiction. }
  assert (P := sorted_reverse_perm created_key l).
  split.
  { rewrite length_firstn. now rewrite (Permutation_length P). }
  split.
  { intros x Hx. apply (Permutation_in x P).
    rewrite <- (firstn_skipn 50 (sorted_reverse created_key l)).
    apply in_or_app. now left. }
  intros L. rewrite firstn_all2; [exact P|].
  now rewrite (Permutation_length P).
Qed.

Lemma step_recent_size_witness :
  List.length (firstn 50 (rev Samples.fifty_one))
  = Nat.min 50 (List.length Samples.fifty_one)
  /\ incl (firstn 50 (rev Samples.fifty_one)) Samples.fifty_one
  /\ ((List.length Samples.fifty_one <= 50)%nat ->
      Permutation (firstn 50 (rev Samples.fifty_one)) Samples.fifty_one).
Proof.
  apply (step_recent_size Samples.today 30); [discriminate | reflexivity].
Defined.

(** X5: with a non-empty provider list, a record is kept exactly when
    its identifier, lower-cased, contains one of the names, lower-cased:
    the match ignores case on both sides, and the records kept stay in
    their order. *)
Theorem step_providers_membership (p : string) (ps : list string)
  (l : list ModelRecord) (m : ModelRecord) :
  (In m (step_providers (Some (p :: ps)) l) <->
   In m l /\ exists q before after,
              In q (p :: ps)
              /\ lower (id m) = (before ++ lower q ++ after)%string)
  /\ subseq (step_providers (Some (p :: ps)) l) l.
Proof.
  split; [|apply subseq_filter].
  unfold step_providers. rewrite filter_In. unfold from_provider, any.
  rewrite existsb_exists. split.
  - intros [Hin [x [Hx Cx]]]. split; [exact Hin|].
    apply in_map_iff in Hx. destruct Hx as [q [<- Hq]].
    apply contains_iff in Cx. destruct Cx as [before [after E]].
    now exists q, before, after.
  - intros [Hin [q [before [after [Hq E]]]]]. split; [exact Hin|].
    exists (lower q). split; [now apply in_map|].
    apply contains_iff. now exists before, after.
Qed.

(** X6: with a non-empty search term, a record is kept exactly when the
    term, lower-cased, occurs in its lower-cased identifier or in its
    lower-cased name; a record without a name is matched on its
    identifier alone. *)
Theorem step_search_membership (t : string) (l : list ModelRecord)
  (m : ModelRecord) :
  t <> "" ->
  (In m (step_search (Some t) l) <->
   In m l
   /\ ((exists before after, lower (id m) = (before ++ lower t ++ after)%string)
       \/ (exists before after,
              lower (get_or (name m) "") = (before ++ lower t ++ after)%string)))
  /\ (name m = None ->
      (In m (step_search (Some t) l) <->
       In m l /\ contains (lower t) (lower (id m)) = true)).
Proof.
  intros ne. unfold step_search.
  destruct (String.eqb t "") eqn:E; [apply String.eqb_eq in E; contradiction|].
  split.
  - rewrite filter_In. unfold matches_search.
    rewrite orb_true_iff, !contains_iff. tauto.
  - intros N. rewrite filter_In. unfold matches_search. rewrite N.
    assert (X : contains (lower t) (lower (get_or None "")) = false).
    { destruct t as [|a t]; [contradiction | reflexivity]. }
    rewrite X, orb_false_r. tauto.
Qed.

Lemma step_search_membership_witness :
  In (Samples.numbered 7) (step_search (Some "MODEL-7") Samples.fifty_one).
Proof.
  destruct (step_search_membership "MODEL-7" Samples.fifty_one (Samples.numbered 7))
    as [[_ H] _]; [discriminate|].
  apply H. split; [simpl; tauto|].
  left. now exists "", "".
Defined.

(** The reasoning flag has no effect: the filter returns the same for
    either value of it. *)
Lemma reasoning_flag_ignored (today : Z) (models : list ModelRecord)
  (t v r : bool) (p : option float) (mc : option Z) (ps : option (list string))
  (rd : option Z) (s : option string) :
  filter_models today models
    {| has_tools := t; has_vision := v; has_reasoning := r;
       max_input_price := p; min_context_window := mc;
       providers := ps; recent_days := rd; search_term := s |}
  = filter_models today models
    {| has_tools := t; has_vision := v; has_reasoning := negb r;
       max_input_price := p; min_context_window := mc;
       providers := ps; recent_days := rd; search_term := s |}.
Proof. reflexivity. Qed.

End FilterMore.

(* ================================================================== *)
(** * More on the config exporter *)
(* ================================================================== *)

Module ExportMore.

Import Catalog Discovery Notions.

Lemma local_id_no_slash (s : string) : contains "/" (local_id s) = false.
Proof.
  unfold local_id. destruct (negb _).
  - change ("or-" ++ ?x)%string with (String "o" (String "r" (String "-" x))).
    rewrite !ExportFacts.contains_char_cons by discriminate.
    now apply replace_char_absent.
  - now apply replace_char_absent.
Qed.

Lemma replace_char_twice (s : string) :
  replace_char "/" "-" (replace_char "/" "-" s) = replace_char "/" "-" s.
Proof.
  apply ExportFacts.replace_char_fixed. now apply replace_char_absent.
Qed.

(** X7: the derived local identifier always starts with "or-" and holds
    no slash, and deriving again from a derived identifier changes
    nothing; the derivation does not tell a slash from a dash, so catalog
    identifiers that differ only there get the same local identifier. *)
Theorem local_id_normal_form (s : string) :
  startswith (local_id s) "or-" = true
  /\ contains "/" (local_id s) = false
  /\ local_id (local_id s) = local_id s
  /\ local_id (replace_char "/" "-" s) = local_id s.
Proof.
  split; [apply ExportFacts.local_id_prefixed|].
  split; [apply local_id_no_slash|].
  split; [apply ExportFacts.local_id_idempotent|].
  unfold local_id. now rewrite replace_char_twice.
Qed.

(** X8: the capability tags of an exported entry are a selection of
    Tools, Vision, Reasoning, Streaming in this order, without repeats:
    Tools exactly when the supported parameters hold "tools" or
    "functions", Vision exactly when the modality mentions "image",
    Reasoning exactly when the identifier holds ":thinking" or the
    lower-cased description holds "reasoning", and Streaming always. *)
Theorem capability_tags (m : ModelRecord) :
  subseq (capabilities_of m) ["Tools"; "Vision"; "Reasoning"; "Streaming"]
  /\ NoDup (capabilities_of m)
  /\ (In "Tools" (capabilities_of m) <->
      in_list "tools" (get_or (supported_parameters m) []) = true
      \/ in_list "functions" (get_or (supported_parameters m) []) = true)
  /\ (In "Vision" (capabilities_of m) <-> accepts_images m = true)
  /\ (In "Reasoning" (capabilities_of m) <->
      contains ":thinking" (id m) = true
      \/ contains "reasoning" (lower (get_or (description m) "")) = true)
  /\ In "Streaming" (capabilities_of m).
Proof.
  unfold capabilities_of, accepts_images.
  destruct (in_list "tools" _) eqn:T, (in_list "functions" _) eqn:F,
    (contains "image" _) eqn:V, (contains ":thinking" _) eqn:K,
    (contains "reasoning" _) eqn:R; cbn [orb app];
    (split; [repeat first [apply subseq_nil | apply subseq_keep | apply subseq_skip]|]);
    (split; [repeat constructor; simpl; intuition discriminate|]);
    simpl; intuition (try discriminate; try congruence).
Qed.

Lemma tools_tag (m : ModelRecord) :
  supports_tools m = true -> In "Tools" (capabilities_of m).
Proof.
  unfold supports_tools, capabilities_of. intros ->. cbn [orb].
  destruct (contains "image" _), (_ || _)%bool; simpl; tauto.
Qed.

Lemma vision_tag (m : ModelRecord) :
  accepts_images m = true -> In "Vision" (capabilities_of m).
Proof.
  unfold accepts_images, capabilities_of. intros ->.
  destruct (_ || _)%bool, (_ || _)%bool; simpl; tauto.
Qed.

(** X9: exporting what the filter returned: under the tools flag every
    exported entry carries the Tools tag, and under the vision flag every
    exported entry carries the Vision tag; the export has one entry per
    record the filter returned. *)
Theorem filtered_export_tags (today : Z) (models r : list ModelRecord)
  (c : FilterCriteria) (output_file : string) :
  filter_models today models c = Ok r ->
  List.length (content (export_to_config_format r output_file)) = List.length r
  /\ (has_tools c = true ->
      Forall (fun e => In "Tools" (Config.capabilities e))
             (content (export_to_config_format r output_file)))
  /\ (has_vision c = true ->
      Forall (fun e => In "Vision" (Config.capabilities e))
             (content (export_to_config_format r output_file))).
Proof.
  intros H.
  assert (F := FilterMore.filter_models_passes today models r c H).
  unfold export_to_config_format. simpl. rewrite ExportFacts.export_loop_map.
  split; [apply length_map|].
  split; intros Flag; apply Forall_forall; intros e He;
    apply in_map_iff in He; destruct He as [m [<- Hm]];
    rewrite Forall_forall in F; specialize (F m Hm);
    unfold passes in F; rewrite !andb_true_iff in F.
  - destruct F as [[[[[T _] _] _] _] _].
    unfold passes_tools in T. rewrite Flag in T. simpl.
    now apply tools_tag.
  - destruct F as [[[[[_ V] _] _] _] _].
    unfold passes_vision in V. rewrite Flag in V. simpl.
    now apply vision_tag.
Qed.

Lemma filtered_export_tags_witness :
  List.length (content (export_to_config_format
                          [MoreSamples.capable "anthropic/claude-x";
                           MoreSamples.capable "google/gemini-z"] "out.json"))
  = 2%nat.
Proof.
  apply (filtered_export_tags Samples.today MoreSamples.catalog
           [MoreSamples.capable "anthropic/claude-x";
            MoreSamples.capable "google/gemini-z"]
           MoreSamples.tools_and_vision "out.json").
  reflexivity.
Defined.

End ExportMore.

(* ================================================================== *)
(** * More on the validator *)
(* ================================================================== *)

Module ValidatorMore.

Import Validation Validator ValidatorNotions.

(** *** The lookup dictionary *)

Lemma dict_get_set (d : dict) (k k' : string) (v : Catalog.ModelRecord) :
  dict_get (dict_set d k v) k'
  = if String.eqb k k' then Some v else dict_get d k'.
Proof.
  induction d as [|[k0 v0] d IH]; simpl.
  - reflexivity.
  - destruct (String.eqb k0 k) eqn:E; simpl.
    + apply String.eqb_eq in E. subst k0.
      now destruct (String.eqb k k').
    + rewrite IH. destruct (String.eqb k0 k') eqn:E'; [|reflexivity].
      apply String.eqb_eq in E'. subst k0. rewrite String.eqb_sym in E.
      now rewrite E.
Qed.

Lemma dict_keys_set (d : dict) (k : string) (v : Catalog.ModelRecord) :
  dict_keys (dict_set d k v)
  = if existsb (String.eqb k) (dict_keys d) then dict_keys d else dict_keys d ++ [k].
Proof.
  unfold dict_keys. induction d as [|[k0 v0] d IH]; simpl; [reflexivity|].
  rewrite (String.eqb_sym k k0).
  destruct (String.eqb k0 k) eqn:E; simpl.
  - apply String.eqb_eq in E. now subst.
  - rewrite IH. now destruct (existsb _ _).
Qed.

Lemma dict_keys_set_nodup (d : dict) (k : string) (v : Catalog.ModelRecord) :
  NoDup (dict_keys d) -> NoDup (dict_keys (dict_set d k v)).
Proof.
  intros N. rewrite dict_keys_set.
  destruct (existsb (String.eqb k) (dict_keys d)) eqn:E; [exact N|].
  apply NoDup_app; [exact N | repeat constructor; intros [] |].
  intros x Hx [->|[]].
  assert (existsb (String.eqb x) (dict_keys d) = true); [|congruence].
  apply existsb_exists. exists x. split; [exact Hx | apply String.eqb_refl].
Qed.

Lemma dict_keys_set_in (d : dict) (k k' : string) (v : Catalog.ModelRecord) :
  In k' (dict_keys (dict_set d k v)) <-> k' = k \/ In k' (dict_keys d).
Proof.
  rewrite dict_keys_set.
  destruct (existsb (String.eqb k) (dict_keys d)) eqn:E.
  - apply existsb_exists in E. destruct E as [x [Hx E]].
    apply String.eqb_eq in E. subst x. split; [tauto|].
    intros [->|H]; assumption.
  - rewrite in_app_iff. simpl. intuition.
Qed.

Lemma find_app {A : Type} (p : A -> bool) (l1 l2 : list A) :
  find p (l1 ++ l2) = match find p l1 with Some x => Some x | None => find p l2 end.
Proof.
  induction l1 as [|x l1 IH]; simpl; [reflexivity|]. now destruct (p x).
Qed.

Lemma models_by_id_from (data : list Catalog.ModelRecord) (d : dict) (k : string) :
  dict_get (fold_left (fun d model => dict_set d (Catalog.id model) model) data d) k
  = match find (has_id k) (rev data) with
    | Some m => Some m
    | None => dict_get d k
    end.
Proof.
  revert d; induction data as [|m data IH]; intros d; simpl; [reflexivity|].
  rewrite IH, find_app, dict_get_set. simpl.
  destruct (find (has_id k) (rev data)); [reflexivity|].
  unfold has_id. now destruct (String.eqb (Catalog.id m) k).
Qed.

Lemma models_by_id_keys_from (data : list Catalog.ModelRecord) (d : dict) :
  NoDup (dict_keys d) ->
  NoDup (dict_keys (fold_left (fun d model => dict_set d (Catalog.id model) model) data d))
  /\ forall k,
       In k (dict_keys (fold_left (fun d model => dict_set d (Catalog.id model) model) data d))
       <-> In k (dict_keys d) \/ In k (map Catalog.id data).
Proof.
  revert d; induction data as [|m data IH]; intros d N; simpl.
  - split; [exact N | intros k; tauto].
  - destruct (IH (dict_set d (Catalog.id m) m) (dict_keys_set_nodup d _ m N)) as [N' I].
    split; [exact N'|]. intros k. rewrite I, dict_keys_set_in.
    intuition.
Qed.

(** X10: the lookup dictionary built from the fetched list maps an
    identifier to the last record of the list with that identifier, and
    to nothing when no record has it; its keys are the identifiers of
    the list, each once. *)
Theorem catalog_lookup (data : list Catalog.ModelRecord) (k : string) :
  dict_get (models_by_id data) k
  = find (fun m => String.eqb (Catalog.id m) k) (rev data)
  /\ (forall m, dict_get (models_by_id data) k = Some m ->
                Catalog.id m = k /\ In m data)
  /\ (dict_get (models_by_id data) k = None <-> ~ In k (map Catalog.id data))
  /\ NoDup (dict_keys (models_by_id data))
  /\ (In k (dict_keys (models_by_id data)) <-> In k (map Catalog.id data)).
Proof.
  assert (G : dict_get (models_by_id data) k = find (has_id k) (rev data)).
  { unfold models_by_id. rewrite models_by_id_from. simpl.
    now destruct (find _ _). }
  destruct (models_by_id_keys_from data [] (NoDup_nil _)) as [N I].
  split; [exact G|]. split; [|split; [|split; [exact N|]]].
  - intros m H. rewrite G in H. apply find_some in H. destruct H as [Hin E].
    apply String.eqb_eq in E. split; [exact E | now apply in_rev].
  - rewrite G. split.
    + intros H Hin. apply in_map_iff in Hin. destruct Hin as [m [E Hm]].
      apply in_rev in Hm. assert (X := find_none _ _ H m Hm).
      unfold has_id in X. rewrite E, String.eqb_refl in X. discriminate.
    + intros H. destruct (find (has_id k) (rev data)) as [m|] eqn:F; [|reflexivity].
      apply find_some in F. destruct F as [Hin E]. apply String.eqb_eq in E.
      exfalso. apply H. apply in_map_iff. exists m. split; [exact E | now apply in_rev].
  - unfold models_by_id. rewrite I. simpl. tauto.
Qed.

(** *** One entry, and a run *)

Lemma test_model_exists_spec (remote : Remote) (model_id : string) (st : State) :
  test_model_exists remote model_id st
  = (match dict_get (catalog_in_use remote st) model_id with
     | Some m => (true, Found m)
     | None => (false, NotFound (firstn 5 (similar_to model_id (catalog_in_use remote st))))
     end,
     {| available_models := Some (catalog_in_use remote st); probes := probes st |}).
Proof.
  unfold test_model_exists, catalog_in_use, similar_to, slice_to.
  destruct (available_models st); now destruct (dict_get _ _).
Qed.

Lemma validate_config_model_spec (remote : Remote) (model_config : Config.Entry)
  (st : State) :
  id (fst (validate_config_model remote model_config st)) = Config.id model_config
  /\ name (fst (validate_config_model remote model_config st)) = Config.name model_config
  /\ modelId (fst (validate_config_model remote model_config st))
     = Config.modelId model_config
  /\ judged_in (catalog_in_use remote st)
               (fst (validate_config_model remote model_config st))
  /\ available_models (snd (validate_config_model remote model_config st))
     = Some (catalog_in_use remote st).
Proof.
  unfold validate_config_model, judged_in.
  rewrite test_model_exists_spec.
  remember (firstn 5 (similar_to (Config.modelId model_config)
                                 (catalog_in_use remote st))) as sim eqn:Hs.
  destruct (dict_get (catalog_in_use remote st) (Config.modelId model_config))
    as [m|] eqn:G; cbn [negb fst snd].
  - unfold test_model_call.
    destruct (chat_completion remote _ _); simpl; rewrite G; auto 10.
  - destruct sim as [|s similar]; cbn -[firstn]; rewrite G, <- Hs; auto 10.
Qed.

Lemma catalog_in_use_cached (remote remote' : Remote) (st st' : State) :
  available_models st' = Some (catalog_in_use remote st) ->
  catalog_in_use remote' st' = catalog_in_use remote st.
Proof. unfold catalog_in_use at 2. now intros ->. Qed.

Lemma validate_all_spec (remote : Remote) (entries : list Config.Entry) :
  forall (acc : list ValidationResult) (st : State),
  exists new,
    fst (validate_all remote entries acc st) = acc ++ new
    /\ map id new = map Config.id entries
    /\ map name new = map Config.name entries
    /\ map modelId new = map Config.modelId entries
    /\ Forall (judged_in (catalog_in_use remote st)) new
    /\ probes (snd (validate_all remote entries acc st))
       = probes st ++ map modelId (filter exists_ new).
Proof.
  induction entries as [|e entries IH]; intros acc st; simpl.
  - exists []. rewrite !app_nil_r. repeat split; constructor.
  - destruct (validate_config_model_spec remote e st) as [I [N [M [J A]]]].
    destruct (ValidatorFacts.validate_config_model_shape remote e st) as [_ [_ P]].
    destruct (validate_config_model remote e st) as [r st1]. simpl in *.
    destruct (IH (acc ++ [r]) st1) as [new [E [I' [N' [M' [J' P']]]]]].
    rewrite (catalog_in_use_cached remote remote st st1 A) in J'.
    exists (r :: new). rewrite E, <- app_assoc. simpl.
    rewrite I, N, M, I', N', M'.
    repeat split; try reflexivity; [now constructor|].
    rewrite P', P, <- M.
    destruct (exists_ r); simpl; now rewrite <- app_assoc.
Qed.

Lemma dict_get_keys (d : dict) (k : string) :
  dict_get d k <> None <-> In k (dict_keys d).
Proof.
  unfold dict_keys. induction d as [|[k0 v] d IH]; simpl; [tauto|].
  destruct (String.eqb k0 k) eqn:E.
  - apply String.eqb_eq in E. split; [now left | discriminate].
  - apply String.eqb_neq in E. rewrite IH. tauto.
Qed.

Lemma main_run_spec (c : ascii) (key : string) (config : Registry) (remote : Remote) :
  map id (results (main (Some (String c key)) (Loaded config) remote))
  = map Config.id (get_or (models config) [])
  /\ map name (results (main (Some (String c key)) (Loaded config) remote))
     = map Config.name (get_or (models config) [])
  /\ map modelId (results (main (Some (String c key)) (Loaded config) remote))
     = map Config.modelId (get_or (models config) [])
  /\ Forall (judged_in (fetch_available_models remote))
            (results (main (Some (String c key)) (Loaded config) remote))
  /\ probes_sent (main (Some (String c key)) (Loaded config) remote)
     = map modelId
         (filter exists_ (results (main (Some (String c key)) (Loaded config) remote))).
Proof.
  unfold main.
  destruct (validate_all_spec remote (get_or (models config) []) [] init)
    as [new [E [I [N [M [J P]]]]]].
  destruct (validate_all remote (get_or (models config) []) [] init) as [rs st].
  simpl in E, P, J. subst rs.
  assert (G : forall t rep,
            map id (results {| termination := t; results := new; report_file := rep;
                               probes_sent := probes st |})
            = map Config.id (get_or (models config) [])
            /\ map name (results {| termination := t; results := new;
                                    report_file := rep; probes_sent := probes st |})
               = map Config.name (get_or (models config) [])
            /\ map modelId (results {| termination := t; results := new;
                                       report_file := rep; probes_sent := probes st |})
               = map Config.modelId (get_or (models config) [])
            /\ Forall (judged_in (fetch_available_models remote))
                      (results {| termination := t; results := new;
                                  report_file := rep; probes_sent := probes st |})
            /\ probes_sent {| termination := t; results := new; report_file := rep;
                              probes_sent := probes st |}
               = map modelId
                   (filter exists_
                      (results {| termination := t; results := new;
                                  report_file := rep; probes_sent := probes st |}))).
  { intros t rep. cbn [results probes_sent]. auto 10. }
  destruct (print_summary new); [|apply G].
  destruct (filter has_issue new); [apply G|].
  destruct (truediv _ _); apply G.
Qed.

Lemma judged_in_exists (d : dict) (r : ValidationResult) :
  judged_in d r -> (exists_ r = true <-> In (modelId r) (dict_keys d)).
Proof.
  unfold judged_in. rewrite <- dict_get_keys.
  destruct (dict_get d (modelId r)).
  - intros [-> _]. split; [discriminate | reflexivity].
  - intros [-> _]. split; [discriminate | congruence].
Qed.

Lemma append_empty (s : string) : (s ++ "")%string = s.
Proof. induction s as [|a s IH]; simpl; [reflexivity | now rewrite IH]. Qed.

(** *** The properties *)

(** X11: the catalog is fetched once: after a first lookup the validator
    holds the catalog that lookup used, and every later lookup is
    answered from it whatever the service would say then; when the fetch
    failed, the empty catalog it left is what later lookups see. *)
Theorem catalog_fetched_once (remote remote' : Remote) (id1 id2 : string) (st : State) :
  available_models (snd (test_model_exists remote id1 st))
  = Some (catalog_in_use remote st)
  /\ fst (test_model_exists remote' id2 (snd (test_model_exists remote id1 st)))
     = fst (test_model_exists remote id2 st)
  /\ (forall e, models_endpoint remote = Raise e ->
       fst (test_model_exists remote' id2 (snd (test_model_exists remote id1 init)))
       = (false, NotFound [])).
Proof.
  rewrite !test_model_exists_spec. cbn [fst snd].
  split; [reflexivity|]. split; [reflexivity|].
  intros e E. unfold catalog_in_use, fetch_available_models. cbn [available_models init].
  now rewrite E.
Qed.

(** X12: what a result says of its entry.  If the upstream identifier is
    a key of the catalog, the entry exists, the record listed under it is
    attached and nothing is suggested.  If not, the entry does not exist
    and at most five keys are attached, each a key of the catalog that
    contains the identifier when both are lower-cased; a suggestion is
    made exactly when there is such a key. *)
Theorem entry_verdict (remote : Remote) (model_config : Config.Entry) (st : State) :
  (In (Config.modelId model_config) (dict_keys (catalog_in_use remote st)) ->
   exists m,
     dict_get (catalog_in_use remote st) (Config.modelId model_config) = Some m
     /\ exists_ (fst (validate_config_model remote model_config st)) = true
     /\ model_info (fst (validate_config_model remote model_config st))
        = Some (Found m)
     /\ suggestion (fst (validate_config_model remote model_config st)) = None)
  /\ (~ In (Config.modelId model_config) (dict_keys (catalog_in_use remote st)) ->
      exists similar,
        exists_ (fst (validate_config_model remote model_config st)) = false
        /\ model_info (fst (validate_config_model remote model_config st))
           = Some (NotFound similar)
        /\ (List.length similar <= 5)%nat
        /\ (forall s, In s similar ->
              In s (dict_keys (catalog_in_use remote st))
              /\ exists before after,
                   lower s
                   = (before ++ lower (Config.modelId model_config) ++ after)%string)
        /\ (suggestion (fst (validate_config_model remote model_config st)) = None
            <-> similar = [])
        /\ (similar = [] <->
            forall k, In k (dict_keys (catalog_in_use remote st)) ->
                      contains (lower (Config.modelId model_config)) (lower k) = false)).
Proof.
  destruct (validate_config_model_spec remote model_config st) as [_ [_ [M [J _]]]].
  unfold judged_in in J. rewrite M in J.
  split; intros K.
  - apply dict_get_keys in K.
    destruct (dict_get _ _) as [m|]; [|contradiction]. exists m. tauto.
  - rewrite <- dict_get_keys in K.
    destruct (dict_get _ _) as [m|]; [exfalso; apply K; discriminate|].
    destruct J as [E [_ [_ [Mi Su]]]].
    exists (firstn 5 (similar_to (Config.modelId model_config)
                                 (catalog_in_use remote st))).
    split; [exact E|]. split; [exact Mi|].
    split; [apply firstn_le_length|].
    split.
    { intros s Hs.
      assert (Hs' : In s (similar_to (Config.modelId model_config)
                                     (catalog_in_use remote st))).
      { rewrite <- (firstn_skipn 5 (similar_to _ _)). apply in_or_app. now left. }
      apply filter_In in Hs'. destruct Hs' as [Hk C]. split; [exact Hk|].
      now apply contains_iff in C. }
    split.
    { rewrite Su. destruct (firstn 5 _); split; congruence. }
    split.
    { intros Z k Hk.
      destruct (contains _ (lower k)) eqn:C; [|reflexivity].
      assert (In k (similar_to (Config.modelId model_config)
                               (catalog_in_use remote st)))
        by (apply filter_In; auto).
      destruct (similar_to _ _) as [|x xs]; [contradiction | discriminate]. }
    intros Z. unfold similar_to.
    rewrite (proj2 (ValidatorFacts.filter_nil_iff _ _)); [reflexivity|].
    apply Forall_forall. exact Z.
Qed.

(** X13: the lookup is by exact identifier, the search for similar keys
    ignores case: an entry whose upstream identifier differs from a
    catalog key only in case is reported as not existing, with a
    suggestion. *)
Theorem wrong_case_is_absent (remote : Remote) (model_config : Config.Entry)
  (st : State) (k : string) :
  ~ In (Config.modelId model_config) (dict_keys (catalog_in_use remote st)) ->
  In k (dict_keys (catalog_in_use remote st)) ->
  lower k = lower (Config.modelId model_config) ->
  exists_ (fst (validate_config_model remote model_config st)) = false
  /\ callable (fst (validate_config_model remote model_config st)) = false
  /\ suggestion (fst (validate_config_model remote model_config st)) <> None.
Proof.
  intros K Hk L.
  destruct (validate_config_model_spec remote model_config st) as [_ [_ [M [J _]]]].
  unfold judged_in in J. rewrite M in J. rewrite <- dict_get_keys in K.
  destruct (dict_get _ _) as [m|]; [exfalso; apply K; discriminate|].
  destruct J as [E [C [_ [_ Su]]]].
  split; [exact E|]. split; [exact C|].
  rewrite Su.
  assert (S : In k (similar_to (Config.modelId model_config)
                               (catalog_in_use remote st))).
  { apply filter_In. split; [exact Hk|]. rewrite L.
    apply contains_iff. exists "", "". simpl. now rewrite append_empty. }
  destruct (similar_to _ _) as [|x xs]; [contradiction | discriminate].
Qed.

Lemma wrong_case_is_absent_witness :
  suggestion (fst (validate_config_model MoreSamples.healthy
                     (MoreSamples.entry "or-claude" "Anthropic/Claude-X") init))
  <> None.
Proof.
  apply (wrong_case_is_absent MoreSamples.healthy
           (MoreSamples.entry "or-claude" "Anthropic/Claude-X") init
           "anthropic/claude-x").
  - simpl. intuition discriminate.
  - simpl. tauto.
  - reflexivity.
Defined.

(** X14: a run that reaches the validation produces one result per
    registry entry, in the order of the registry, each carrying the
    identifier, the name and the upstream identifier of its entry; and
    every result is judged against the one catalog fetched at the start:
    it exists exactly when its upstream identifier is a key of it. *)
Theorem results_mirror_registry (c : ascii) (key : string) (config : Registry)
  (remote : Remote) :
  map id (results (main (Some (String c key)) (Loaded config) remote))
  = map Config.id (get_or (models config) [])
  /\ map name (results (main (Some (String c key)) (Loaded config) remote))
     = map Config.name (get_or (models config) [])
  /\ map modelId (results (main (Some (String c key)) (Loaded config) remote))
     = map Config.modelId (get_or (models config) [])
  /\ List.length (results (main (Some (String c key)) (Loaded config) remote))
     = List.length (get_or (models config) [])
  /\ Forall (fun r => exists_ r = true <->
                      In (modelId r) (dict_keys (fetch_available_models remote)))
            (results (main (Some (String c key)) (Loaded config) remote)).
Proof.
  destruct (main_run_spec c key config remote) as [I [N [M [J _]]]].
  split; [exact I|]. split; [exact N|]. split; [exact M|]. split.
  - rewrite <- (length_map id), I. apply length_map.
  - eapply Forall_impl; [|exact J]. intros r. apply judged_in_exists.
Qed.

(** X15: the probes of a run are the upstream identifiers of the results
    that exist, in the order of the registry: an entry that exists is
    probed once, an entry that does not is never probed, and there are no
    more probes than entries. *)
Theorem probes_follow_registry (c : ascii) (key : string) (config : Registry)
  (remote : Remote) :
  probes_sent (main (Some (String c key)) (Loaded config) remote)
  = map modelId
      (filter exists_ (results (main (Some (String c key)) (Loaded config) remote)))
  /\ (List.length (probes_sent (main (Some (String c key)) (Loaded config) remote))
      <= List.length (get_or (models config) []))%nat.
Proof.
  destruct (main_run_spec c key config remote) as [_ [_ [M [_ P]]]].
  split; [exact P|].
  rewrite P, length_map.
  etransitivity; [apply filter_length_le|].
  rewrite <- (length_map modelId), M. now rewrite length_map.
Qed.

Lemma judged_in_empty (r : ValidationResult) :
  judged_in [] r ->
  exists_ r = false /\ callable r = false /\ error r = None
  /\ model_info r = Some (NotFound []) /\ suggestion r = None.
Proof. unfold judged_in. simpl. tauto. Qed.

(** X16: when the models endpoint fails, the run goes on with an empty
    catalog: every entry is reported as not existing, with no similar
    keys and no suggestion, no probe is sent, and over a registry with
    entries the run exits with 1 after writing a report that lists every
    entry as failed, with a success rate of 0. *)
Theorem unreachable_catalog (c : ascii) (key : string) (config : Registry)
  (remote : Remote) (e : exn) :
  models_endpoint remote = Raise e ->
  Forall (fun r => exists_ r = false /\ callable r = false /\ error r = None
                   /\ model_info r = Some (NotFound []) /\ suggestion r = None)
         (results (main (Some (String c key)) (Loaded config) remote))
  /\ probes_sent (main (Some (String c key)) (Loaded config) remote) = []
  /\ (get_or (models config) [] <> [] ->
      termination (main (Some (String c key)) (Loaded config) remote) = Exit 1
      /\ report_file (main (Some (String c key)) (Loaded config) remote)
         = Some {| total_tested := Z.of_nat (List.length (get_or (models config) []));
                   failed_models :=
                     results (main (Some (String c key)) (Loaded config) remote);
                   success_rate := 0%float |}).
Proof.
  intros E.
  destruct (main_run_spec c key config remote) as [I [_ [_ [J P]]]].
  assert (F : fetch_available_models remote = [])
    by (unfold fetch_available_models; now rewrite E).
  rewrite F in J.
  assert (A : Forall (fun r => exists_ r = false /\ callable r = false /\ error r = None
                   /\ model_info r = Some (NotFound []) /\ suggestion r = None)
         (results (main (Some (String c key)) (Loaded config) remote))).
  { eapply Forall_impl; [|exact J]. intros r. apply judged_in_empty. }
  assert (X : filter exists_ (results (main (Some (String c key)) (Loaded config) remote)) = []).
  { apply ValidatorFacts.filter_nil_iff. eapply Forall_impl; [|exact A].
    intros r [Ex _]. exact Ex. }
  split; [exact A|]. split; [now rewrite P, X|].
  intros ne.
  assert (L : List.length (results (main (Some (String c key)) (Loaded config) remote))
              = List.length (get_or (models config) []))
    by (rewrite <- (length_map id), I; apply length_map).
  assert (H : filter has_issue (results (main (Some (String c key)) (Loaded config) remote))
              = results (main (Some (String c key)) (Loaded config) remote)).
  { apply FilterMore.filter_all. eapply Forall_impl; [|exact A].
    intros r [Ex _]. unfold has_issue. now rewrite Ex. }
  assert (Rs : results (main (Some (String c key)) (Loaded config) remote)
               = fst (validate_all remote (get_or (models config) []) [] init)).
  { unfold main. destruct (validate_all _ _ _ _) as [rs st].
    destruct (print_summary rs); [|reflexivity].
    destruct (filter has_issue rs); [reflexivity|].
    now destruct (truediv _ _). }
  rewrite Rs in *. clear Rs A X I J P. unfold main.
  destruct (validate_all remote (get_or (models config) []) [] init) as [rs st].
  cbn [fst] in *.
  assert (nn : rs <> []).
  { intros ->. destruct (get_or (models config) []); [contradiction | discriminate]. }
  destruct (ValidatorFacts.print_summary_ok rs nn) as [s ->].
  rewrite H.
  destruct rs as [|r rs']; [contradiction|].
  replace (Z.of_nat (List.length (r :: rs')) - Z.of_nat (List.length (r :: rs')))
    with 0 by lia.
  unfold truediv.
  replace (Z.of_nat (List.length (r :: rs')) =? 0) with false
    by (symmetry; apply Z.eqb_neq; simpl; lia).
  replace (Z.of_nat (List.length (r :: rs')) <? 0) with false
    by (symmetry; apply Z.ltb_ge; lia).
  cbn [Z.eqb termination report_file]. rewrite L. split; reflexivity.
Qed.

Lemma unreachable_catalog_witness :
  probes_sent (main (Some "k")
                    (MoreSamples.registry [MoreSamples.entry "or-x" "openai/gpt-y"])
                    MoreSamples.unreachable) = [].
Proof.
  apply (unreachable_catalog "k" "" _ MoreSamples.unreachable
           (Exn RemoteError "503 Service Unavailable")).
  reflexivity.
Defined.

Lemma count_le {A : Type} (p q : A -> bool) (l : list A) :
  Forall (fun x => p x = true -> q x = true) l -> count p l <= count q l.
Proof.
  unfold count. induction 1 as [|x l Hx _ IH]; simpl; [lia|].
  destruct (p x); [rewrite Hx by reflexivity; simpl; lia|].
  destruct (q x); simpl; lia.
Qed.

Lemma filter_split_length {A : Type} (p : A -> bool) (l : list A) :
  (List.length (filter p l) + List.length (filter (fun x => negb (p x)) l)
   = List.length l)%nat.
Proof.
  induction l as [|x l IH]; simpl; [reflexivity|].
  destruct (p x); simpl; lia.
Qed.

(** X17: the summary is computed only for a non-empty list of results;
    for results as the validator produces them (callable only if
    existing) the callable count is at most the exists count, which is at
    most the total; every result is listed once, among the models with
    issues or among the working ones, and the working ones are counted by
    the callable count. *)
Theorem summary_counts (rs : list ValidationResult) (s : Summary) :
  Forall consistent rs ->
  print_summary rs = Ok s ->
  rs <> []
  /\ total s = Z.of_nat (List.length rs)
  /\ 0 <= callable_count s <= exists_count s
  /\ exists_count s <= total s
  /\ issues s = filter has_issue rs
  /\ working s = filter works rs
  /\ (List.length (issues s) + List.length (working s) = List.length rs)%nat
  /\ callable_count s = Z.of_nat (List.length (working s)).
Proof.
  intros C H.
  assert (ne : rs <> []) by (intros ->; discriminate).
  unfold print_summary in H.
  destruct (truediv (count exists_ rs) _) as [e|]; [|discriminate].
  destruct (truediv (count callable rs) _) as [q|]; [|discriminate].
  simpl in H. inversion H; subst s; clear H. cbn.
  split; [exact ne|]. split; [reflexivity|].
  assert (CE : count callable rs <= count exists_ rs).
  { apply count_le. eapply Forall_impl; [|exact C]. intros r [X _]. exact X. }
  split; [split; [unfold count; lia | exact CE]|].
  split.
  { unfold count. apply inj_le, filter_length_le. }
  split; [reflexivity|]. split; [reflexivity|]. split.
  - rewrite <- (filter_split_length works rs), Nat.add_comm. f_equal.
    f_equal. apply filter_ext. intros r. apply ValidatorFacts.has_issue_works.
  - unfold count. do 2 f_equal. apply filter_ext_in. intros r Hr.
    rewrite Forall_forall in C. destruct (C r Hr) as [X _].
    unfold works. destruct (callable r); [now rewrite X | now rewrite andb_false_r].
Qed.

Lemma summary_counts_witness :
  exists s,
    print_summary (results (main (Some "k")
                                 (MoreSamples.registry
                                    [MoreSamples.entry "or-x" "openai/gpt-y";
                                     MoreSamples.entry "or-q" "missing/model"])
                                 MoreSamples.healthy)) = Ok s
    /\ total s = 2 /\ exists_count s = 1 /\ callable_count s = 1.
Proof.
  eexists. split; [reflexivity|].
  destruct (summary_counts
              (results (main (Some "k")
                             (MoreSamples.registry
                                [MoreSamples.entry "or-x" "openai/gpt-y";
                                 MoreSamples.entry "or-q" "missing/model"])
                             MoreSamples.healthy)) _
              (ValidatorFacts.main_results_consistent _ _ _) eq_refl)
    as [_ [T _]].
  split; [exact T | split; reflexivity].
Defined.

(** X18: entries the exporter built from records of the catalog pass
    the existence check: validating a registry that holds the export of
    any records listed by the models endpoint finds every entry. *)
Theorem exported_entries_exist (c : ascii) (key : string) (remote : Remote)
  (data exported_from : list Catalog.ModelRecord) (output_file : string)
  (v d : option string) :
  models_endpoint remote = Ok data ->
  incl exported_from data ->
  Forall (fun r => exists_ r = true)
         (results (main (Some (String c key))
                        (Loaded {| version := v; defaultModel := d;
                                   models :=
                                     Some (Discovery.content
                                             (Discovery.export_to_config_format
                                                exported_from output_file)) |})
                        remote)).
Proof.
  intros E I.
  destruct (main_run_spec c key
              {| version := v; defaultModel := d;
                 models := Some (Discovery.content
                                   (Discovery.export_to_config_format
                                      exported_from output_file)) |} remote)
    as [_ [_ [M [J _]]]].
  assert (R : map Config.modelId
                (Discovery.content
                   (Discovery.export_to_config_format exported_from output_file))
              = map Catalog.id exported_from).
  { cbn [Discovery.export_to_config_format Discovery.content].
    rewrite ExportFacts.export_loop_map, map_map. reflexivity. }
  cbn [get_or models] in M. rewrite R in M. clear R.
  apply Forall_forall. intros r Hr.
  rewrite Forall_forall in J. apply (judged_in_exists _ r (J r Hr)).
  unfold fetch_available_models. rewrite E.
  destruct (models_by_id_keys_from data [] (NoDup_nil _)) as [_ K].
  apply K. right. apply (incl_map Catalog.id I).
  apply (in_map modelId) in Hr. rewrite M in Hr. exact Hr.
Qed.

Lemma exported_entries_exist_witness :
  Forall (fun r => exists_ r = true)
         (results (main (Some "k")
                        (Loaded {| version := None; defaultModel := None;
                                   models :=
                                     Some (Discovery.content
                                             (Discovery.export_to_config_format
                                                MoreSamples.catalog "out.json")) |})
                        MoreSamples.healthy)).
Proof.
  apply (exported_entries_exist "k" "" MoreSamples.healthy MoreSamples.catalog
           MoreSamples.catalog "out.json" None None);
    [reflexivity | apply incl_refl].
Defined.

End ValidatorMore.

(* ================================================================== *)
(** * The API key lookup *)
(* ================================================================== *)

Module CredentialsMore.

Import Text Credentials Notions.

(** *** Lines of a file *)






(** *** Stripping *)




















(** *** The properties *)

(** X19: a key that [get_api_key] returns is never empty; a non-empty
    value of the environment variable is returned as it is, whatever
    [.env] holds; with the variable unset or empty and no [.env] file
    the program exits with 1. *)
Theorem key_sources (src : Sources) :
  (forall k, get_api_key src = Returns k -> k <> "")
  /\ (forall k, environment src = Some k -> k <> "" -> get_api_key src = Returns k)
  /\ (truthy (environment src) = false -> dotenv src = None ->
      get_api_key src = SysExit 1).
Proof.
  split; [|split].
  - intros k. unfold get_api_key.
    destruct (resolve_api_key src) as [api_key| |]; try discriminate.
    destruct api_key as [s|]; simpl; [|discriminate].
    destruct (String.eqb s "") eqn:E; simpl; [discriminate|].
    intros H. inversion H; subst. now apply String.eqb_neq.
  - intros k E ne. unfold get_api_key, resolve_api_key, truthy. rewrite E.
    apply String.eqb_neq in ne. rewrite ne. cbn [negb]. unfold truthy.
    rewrite ne. reflexivity.
  - intros T D. unfold get_api_key, resolve_api_key. rewrite T, D. cbn [negb].
    now rewrite T.
Qed.





End CredentialsMore.

(* ================================================================== *)
(** * The discovery program *)
(* ================================================================== *)

Module ProgramMore.

Import Text Catalog Discovery DiscoveryProgram ProgramNotions.

(** X22: the catalog cache.  After a fetch that returned a non-empty
    list, a fetch without [force_refresh] returns that list without
    asking the endpoint, whatever the endpoint would answer; after a
    fetch that returned the empty list, the next fetch asks again; a
    failed fetch exits with 1 and leaves the cache as it was. *)
Theorem cache_reuse (endpoint' : result (list ModelRecord)) (st : State)
  (m : ModelRecord) (data : list ModelRecord) (e : exn) :
  fetch_all_models endpoint' false
    (snd (fetch_all_models (Ok (m :: data)) true st))
  = (Returns (m :: data), snd (fetch_all_models (Ok (m :: data)) true st))
  /\ requests_sent (snd (fetch_all_models (Ok (m :: data)) true st))
     = S (requests_sent st)
  /\ requests_sent
       (snd (fetch_all_models endpoint' false
               (snd (fetch_all_models (Ok []) true st))))
     = S (S (requests_sent st))
  /\ fetch_all_models (Raise e) true st
     = (SysExit 1, {| models_cache := models_cache st;
                      requests_sent := S (requests_sent st) |}).
Proof.
  unfold fetch_all_models.
  destruct (models_cache st) as [[|x xs]|]; destruct endpoint'; repeat split.
Qed.

(** *** Display *)


Lemma row_of_ok (idx : Z) (m : ModelRecord) :
  displayable m <-> exists row, row_of idx m = Ok row.
Proof.
  unfold displayable, row_of. split.
  - intros [[p ->] [c ->]]. simpl. eauto.
  - destruct (shown_price (prompt _)) as [p|]; [|intros [? H]; discriminate].
    destruct (shown_price (completion _)) as [c|]; [|intros [? H]; discriminate].
    eauto.
Qed.

Lemma row_of_fields (idx : Z) (m : ModelRecord) (row : Row) :
  row_of idx m = Ok row -> index row = idx /\ shown_id row = id m.
Proof.
  unfold row_of.
  destruct (shown_price (prompt _)); [|discriminate].
  destruct (shown_price (completion _)); [|discriminate].
  simpl. intros H. inversion H. now split.
Qed.


Lemma rows_from_ok (shown : list ModelRecord) :
  forall idx,
    Forall displayable shown <-> exists rows, rows_from idx shown = Ok rows.
Proof.
  induction shown as [|m shown IH]; intros idx; simpl.
  - split; [eauto | constructor].
  - split.
    + intros F. inversion F as [|? ? Dm Fs]; subst.
      apply (row_of_ok idx) in Dm. destruct Dm as [row ->].
      apply (IH (idx + 1)) in Fs. destruct Fs as [rows ->]. simpl. eauto.
    + intros [rows H].
      destruct (row_of idx m) as [row|] eqn:R; [|discriminate].
      destruct (rows_from (idx + 1) shown) as [rows'|] eqn:Rs; [|discriminate].
      constructor; [apply (row_of_ok idx); eauto | apply (IH (idx + 1)); eauto].
Qed.

Lemma rows_from_fields (shown : list ModelRecord) :
  forall idx rows,
    rows_from idx shown = Ok rows ->
    map shown_id rows = map id shown
    /\ map index rows = map (fun i => idx + Z.of_nat i) (seq 0 (List.length shown)).
Proof.
  induction shown as [|m shown IH]; intros idx rows; simpl.
  - intros H. inversion H. now split.
  - destruct (row_of idx m) as [row|] eqn:R; [|discriminate].
    destruct (rows_from (idx + 1) shown) as [rows'|] eqn:Rs; [|discriminate].
    simpl. intros H. inversion H; subst.
    destruct (row_of_fields _ _ _ R) as [I D].
    destruct (IH _ _ Rs) as [Ds Is]. simpl. rewrite I, D, Ds, Is.
    split; [reflexivity|]. f_equal; [lia|].
    rewrite <- seq_shift, map_map. apply map_ext. intros i. lia.
Qed.


(** X23: with a limit that is not negative, the display returns exactly
    when both prices of each of the first [limit] models convert (the
    models past the limit are not looked at); it then shows those models
    in order, numbered from 1, min(limit, n) of them, under a header that
    counts all n, and closes with the number of models left out when
    there are more than [limit]. *)
Theorem display_within_limit (models : list ModelRecord) (limit : Z) :
  0 <= limit ->
  ((exists d, display_models models limit = Ok d)
   <-> Forall displayable (firstn (Z.to_nat limit) models))
  /\ (forall d, display_models models limit = Ok d ->
        found d = Z.of_nat (List.length models)
        /\ map shown_id (rows d) = map id (firstn (Z.to_nat limit) models)
        /\ List.length (rows d) = Nat.min (Z.to_nat limit) (List.length models)
        /\ map index (rows d)
           = map (fun i => 1 + Z.of_nat i) (seq 0 (List.length (rows d)))
        /\ more d = if limit <? Z.of_nat (List.length models)
                    then Some (Z.of_nat (List.length models) - limit)
                    else None).
Proof.
  intros L. unfold display_models, slice_to_int.
  replace (0 <=? limit) with true by (symmetry; now apply Z.leb_le).
  split.
  - rewrite (rows_from_ok _ 1). split.
    + intros [d H]. destruct (rows_from 1 _) as [rows|]; [eauto | discriminate].
    + intros [rows ->]. simpl. eauto.
  - intros d H.
    destruct (rows_from 1 _) as [rs|] eqn:R; [|discriminate].
    simpl in H. inversion H; subst d; clear H. cbn [found rows more].
    destruct (rows_from_fields _ _ _ R) as [D I].
    assert (Len : List.length rs
                  = List.length (firstn (Z.to_nat limit) models)).
    { rewrite <- (length_map shown_id), D. apply length_map. }
    split; [reflexivity|]. split; [exact D|]. split.
    { rewrite Len. apply length_firstn. }
    split; [now rewrite Len | reflexivity].
Qed.

Lemma display_within_limit_witness :
  exists d,
    display_models [MoreSamples.capable "a/one"; MoreSamples.odd_price "b/two"] 1
    = Ok d.
Proof.
  apply (display_within_limit
           [MoreSamples.capable "a/one"; MoreSamples.odd_price "b/two"] 1);
    [lia|].
  repeat constructor; eexists; reflexivity.
Defined.

(** X24: a negative limit is taken by the slice as a count from the end:
    the display shows the models but the last [-limit] ones, and its
    closing line still reports [n - limit] models as left out, more than
    there are. *)
Theorem display_negative_limit (models : list ModelRecord) (limit : Z) (d : Display) :
  limit < 0 ->
  display_models models limit = Ok d ->
  map shown_id (rows d)
  = map id (firstn (List.length models - Z.to_nat (- limit)) models)
  /\ List.length (rows d) = (List.length models - Z.to_nat (- limit))%nat
  /\ more d = Some (Z.of_nat (List.length models) - limit)
  /\ Z.of_nat (List.length models) < Z.of_nat (List.length models) - limit.
Proof.
  intros L. unfold display_models, slice_to_int.
  replace (0 <=? limit) with false by (symmetry; apply Z.leb_gt; lia).
  destruct (rows_from 1 _) as [rs|] eqn:R; [|discriminate].
  simpl. intros H. inversion H; subst d; clear H. cbn [found rows more].
  destruct (rows_from_fields _ _ _ R) as [D _].
  split; [exact D|]. split.
  - rewrite <- (length_map shown_id), D, length_map, length_firstn. lia.
  - replace (limit <? Z.of_nat (List.length models)) with true
      by (symmetry; apply Z.ltb_lt; lia).
    split; [reflexivity | lia].
Qed.

Lemma display_negative_limit_witness :
  exists d,
    display_models MoreSamples.catalog (-1) = Ok d
    /\ map shown_id (rows d) = ["anthropic/claude-x"; "openai/gpt-y"]
    /\ more d = Some 4.
Proof.
  eexists. split; [reflexivity|].
  destruct (display_negative_limit MoreSamples.catalog (-1) _ ltac:(lia) eq_refl)
    as [D [_ [M _]]].
  split; [exact D | exact M].
Defined.

(** X25: a record without a prompt price is priced differently by the
    filter and by the display: the filter takes it to cost 999 per token,
    the display shows it at 0 per million tokens. *)
Theorem missing_price_two_readings (idx : Z) (m : ModelRecord) (row : Row) :
  prompt (get_or (pricing m) no_pricing) = None ->
  row_of idx m = Ok row ->
  Discovery.prompt_price m = Ok 999%float
  /\ DiscoveryProgram.prompt_price row = 0%float.
Proof.
  intros N R. split; [now apply PriceFacts.missing_price|].
  revert R. unfold row_of. rewrite N. cbn [shown_price bind].
  destruct (shown_price (completion _)); [|discriminate].
  simpl. intros H. now inversion H.
Qed.

Lemma missing_price_two_readings_witness :
  Discovery.prompt_price (Samples.record "no/price" None None) = Ok 999%float
  /\ DiscoveryProgram.prompt_price
       {| index := 1; shown_name := "Unknown"; shown_id := "no/price";
          prompt_price := 0; completion_price := 0; context := 0; caps := [] |}
     = 0%float.
Proof.
  exact (missing_price_two_readings 1 (Samples.record "no/price" None None) _
           eq_refl eq_refl).
Defined.

(** *** The program *)


Lemma scan_lines_never_exits (lines : list string) (code : Z) :
  Credentials.scan_lines lines <> SysExit code.
Proof.
  induction lines as [|l lines IH]; simpl; [discriminate|].
  destruct (_ && _)%bool; [|apply IH].
  destruct (contains _ l); [|apply IH].
  unfold Credentials.value_of_line.
  destruct (nth_error _ _); discriminate.
Qed.

Lemma resolve_never_exits (src : Credentials.Sources) (code : Z) :
  Credentials.resolve_api_key src <> SysExit code.
Proof.
  unfold Credentials.resolve_api_key.
  destruct (negb _); [|discriminate].
  destruct (Credentials.dotenv src) as [content|]; [|discriminate].
  destruct (Credentials.scan_lines _) as [[v|]| |] eqn:S; try discriminate.
  now apply scan_lines_never_exits in S.
Qed.




(** X28: the validation program without a key: when the lookup finds no
    key the program exits with 1 before any registry entry is looked at
    and before any probe is sent; when it finds one, the run is that of
    the validator with this key. *)
Theorem validator_needs_key (src : Credentials.Sources)
  (file : Validator.ConfigFile) (remote : Validator.Remote) :
  (Credentials.get_api_key src = SysExit 1 ->
   exists r,
     ValidatorProgram.run src file remote = Returns r
     /\ Validator.termination r = Validator.Exit 1
     /\ Validator.results r = []
     /\ Validator.report_file r = None
     /\ Validator.probes_sent r = [])
  /\ (forall key, Credentials.get_api_key src = Returns key ->
        ValidatorProgram.run src file remote
        = Returns (Validator.main (Some key) file remote))
  /\ (forall c, Credentials.get_api_key src = Crashes c ->
        ValidatorProgram.run src file remote = Crashes c).
Proof.
  unfold ValidatorProgram.run, Credentials.get_api_key.
  destruct (Credentials.resolve_api_key src) as [k|code|c0] eqn:R.
  - destruct k as [s|]; unfold truthy; [destruct (String.eqb s "") eqn:E|];
      cbn [negb get_or].
    + apply String.eqb_eq in E. subst s.
      split; [|split; discriminate].
      intros _. eexists. split; [reflexivity|]. repeat split.
    + split; [discriminate|]. split; [|discriminate].
      intros key H. now inversion H.
    + split; [|split; discriminate].
      intros _. eexists. split; [reflexivity|]. repeat split.
  - exfalso. now apply resolve_never_exits in R.
  - split; [discriminate|]. split; [discriminate|].
    intros c H. now inversion H.
Qed.

End ProgramMore.
